(** * honeybee-doe2: ModelDoe2Properties

    A shallow embedding of [honeybee_doe2/properties/model.py]: the
    validation aggregator ([check_for_extension], [check_generic],
    [check_all], [check_no_room_holes]) and the dictionary application
    ([apply_properties_from_dict]).

    The host Model, its rooms and [honeybee.units.parse_distance_string]
    are collaborators defined outside this file of the repository.  They
    enter as interfaces (type classes); every call the aggregator makes on
    them is recorded in a trace, so that the order, the number and the
    arguments of the delegated calls can be stated. *)

From Stdlib Require Import QArith_base.
From Stdlib Require Import List String Ascii Bool Arith Lia.
Import ListNotations.
Local Close Scope Q_scope.
Local Open Scope string_scope.
Local Open Scope list_scope.

Set Implicit Arguments.
Set Warnings "-register-all".

(** ** Python values and exceptions *)

(** The values that flow through the module: check reports (a string, or a
    list of issue dictionaries) and the JSON-like model dictionary.  A dict
    is an association list in insertion order; numbers are rationals. *)
Inductive PyVal : Type :=
| PNone
| PBool (b : bool)
| PNum (q : Q)
| PStr (s : string)
| PList (l : list PyVal)
| PDict (d : list (string * PyVal)).

(** The exceptions met in the module.  [ValueError] is what the checks
    raise on findings, [AssertionError] what the [assert] of
    [apply_properties_from_dict] raises; [KeyError] and [TypeError] come
    from subscripting and iterating; [OtherError] stands for anything else
    a collaborator may raise. *)
Inductive Exn : Type :=
| ValueError (msg : string)
| AssertionError (msg : string)
| KeyError (key : string)
| TypeError
| OtherError (name : string).

Inductive Result (A : Type) : Type :=
| Ok (a : A)
| Raise (e : Exn).

Arguments Ok {A} a.
Arguments Raise {A} e.

Definition rbind {A B} (r : Result A) (f : A -> Result B) : Result B :=
  match r with
  | Ok a => f a
  | Raise e => Raise e
  end.

(** ** The traced computations

    A computation returns or raises, and records the collaborator calls it
    made up to that point. *)
Section Traced.
Variable Call : Type.

Definition Traced (A : Type) : Type := (list Call * Result A)%type.

Definition ret {A} (a : A) : Traced A := ([], Ok a).

Definition bind {A B} (m : Traced A) (f : A -> Traced B) : Traced B :=
  match m with
  | (l, Ok a) => let (l', r) := f a in (l ++ l', r)
  | (l, Raise e) => (l, Raise e)
  end.

(** A computation that makes no call. *)
Definition lift {A} (r : Result A) : Traced A := ([], r).

(** One call on a collaborator, with its outcome. *)
Definition call {A} (c : Call) (r : Result A) : Traced A := ([c], r).

(** A computation preceded by one more call. *)
Definition prepend {A} (c : Call) (m : Traced A) : Traced A :=
  (c :: fst m, snd m).

Definition trace {A} (m : Traced A) : list Call := fst m.
Definition outcome {A} (m : Traced A) : Result A := snd m.
End Traced.

Arguments ret {Call A} a.
Arguments lift {Call A} r.
Arguments bind {Call A B} m f : simpl never.
Arguments call {Call A} c r : simpl never.

Declare Scope traced_scope.
Delimit Scope traced_scope with traced.
Notation "x <- m ;; k" := (bind m (fun x => k))
  (at level 100, m at next level, right associativity) : traced_scope.

(** ** Python operations on values *)

Definition newline : string := String (ascii_of_nat 10) EmptyString.

(** [bool(v)]. *)
Definition truthy (v : PyVal) : bool :=
  match v with
  | PNone => false
  | PBool b => b
  | PNum q => negb (Qeq_bool q 0%Q)
  | PStr s => negb (String.eqb s "")
  | PList l => negb (Nat.eqb (List.length l) 0)
  | PDict d => negb (Nat.eqb (List.length d) 0)
  end.

(** [v != ''] *)
Definition ne_empty_str (v : PyVal) : bool :=
  match v with
  | PStr s => negb (String.eqb s "")
  | _ => true
  end.

(** [v is None] *)
Definition is_none (v : PyVal) : bool :=
  match v with
  | PNone => true
  | _ => false
  end.

(** The one-character strings [for c in s] yields.  A character is one
    [ascii]: texts are taken as 8-bit, and a character that Python holds
    as one code point beyond that range is several characters here. *)
Definition chars (s : string) : list PyVal :=
  map (fun c => PStr (String c EmptyString)) (list_ascii_of_string s).

(** The items [for m in v] yields; numbers, booleans and None are not
    iterable. *)
Definition py_iter (v : PyVal) : Result (list PyVal) :=
  match v with
  | PStr s => Ok (chars s)
  | PList l => Ok l
  | PDict d => Ok (map (fun kv => PStr (fst kv)) d)
  | _ => Raise TypeError
  end.

(** [[m for msg in msgs for m in msg]] *)
Fixpoint flatten (msgs : list PyVal) : Result (list PyVal) :=
  match msgs with
  | [] => Ok []
  | msg :: rest =>
      rbind (py_iter msg) (fun ms =>
      rbind (flatten rest) (fun ms' => Ok (ms ++ ms')))
  end.

(** The strings of a list all of whose items are strings. *)
Fixpoint strings_of (l : list PyVal) : option (list string) :=
  match l with
  | [] => Some []
  | PStr s :: rest =>
      match strings_of rest with
      | Some ss => Some (s :: ss)
      | None => None
      end
  | _ :: _ => None
  end.

(** [sep.join(l)]: a TypeError when an item is not a string. *)
Definition py_join (sep : string) (l : list PyVal) : Result string :=
  match strings_of l with
  | Some ss => Ok (String.concat sep ss)
  | None => Raise TypeError
  end.

Fixpoint lookup (k : string) (d : list (string * PyVal)) : option PyVal :=
  match d with
  | [] => None
  | (k', v) :: rest => if String.eqb k k' then Some v else lookup k rest
  end.

(** [v[k]] for a string key [k]. *)
Definition getitem (v : PyVal) (k : string) : Result PyVal :=
  match v with
  | PDict d =>
      match lookup k d with
      | Some x => Ok x
      | None => Raise (KeyError k)
      end
  | _ => Raise TypeError
  end.

Definition is_str (k : string) (v : PyVal) : bool :=
  match v with
  | PStr s => String.eqb s k
  | _ => false
  end.

(** [k in v] for a string [k]: a key of a dict, an item of a list, a
    substring of a string. *)
Definition py_in (k : string) (v : PyVal) : Result bool :=
  match v with
  | PDict d =>
      Ok (match lookup k d with Some _ => true | None => false end)
  | PList l => Ok (existsb (is_str k) l)
  | PStr s =>
      Ok (match String.index 0 k s with Some _ => true | None => false end)
  | _ => Raise TypeError
  end.

(** ** The collaborators

    A honeybee Model as far as this module reads it; [other] is the rest
    of the model (geometry, identifiers, energy properties), which only the
    host's own checks look at. *)
Record Model (Num Room Other : Type) : Type := mkModel {
  tolerance : Num;
  angle_tolerance : Num;
  units : string;
  rooms : list Room;
  other : Other
}.

(** The check methods of the host Model, with their positional
    arguments in the order of the call sites: tolerances,
    [raise_exception], [detailed].  The last one is the check of
    [host.properties.energy]. *)
Class ModelChecks (Num Room Other : Type) : Type := {
  check_all_duplicate_identifiers :
    Model Num Room Other -> bool -> bool -> Result PyVal;
  check_planar :
    Model Num Room Other -> Num -> bool -> bool -> Result PyVal;
  check_self_intersecting :
    Model Num Room Other -> Num -> bool -> bool -> Result PyVal;
  check_degenerate_rooms :
    Model Num Room Other -> Num -> bool -> bool -> Result PyVal;
  check_sub_faces_valid :
    Model Num Room Other -> Num -> Num -> bool -> bool -> Result PyVal;
  check_sub_faces_overlapping :
    Model Num Room Other -> Num -> bool -> bool -> Result PyVal;
  check_rooms_solid :
    Model Num Room Other -> Num -> Num -> bool -> bool -> Result PyVal;
  check_upside_down_faces :
    Model Num Room Other -> Num -> bool -> bool -> Result PyVal;
  check_room_volume_collisions :
    Model Num Room Other -> Num -> bool -> bool -> Result PyVal;
  check_missing_adjacencies :
    Model Num Room Other -> bool -> bool -> Result PyVal;
  check_matching_adjacent_areas :
    Model Num Room Other -> Num -> bool -> bool -> Result PyVal;
  check_all_air_boundaries_adjacent :
    Model Num Room Other -> bool -> bool -> Result PyVal;
  check_interior_constructions_reversed :
    Model Num Room Other -> bool -> bool -> Result PyVal
}.

(** [room.properties.doe2]: the hole check of a room, and the application
    of a room dictionary, which mutates the room and may raise. *)
Class RoomDoe2 (Room : Type) : Type := {
  check_no_holes : Room -> bool -> bool -> Result PyVal;
  room_apply_properties_from_dict : Room -> PyVal -> Room * Result unit
}.

(** [honeybee.units.parse_distance_string (value, destination_units)]. *)
Class Units (Num : Type) : Type := {
  parse_distance_string : string -> string -> Result Num
}.

(** The calls the module makes on its collaborators, with the arguments
    passed.  [CallNoRoomHoles] marks the call of the module's own
    [check_no_room_holes] from [check_for_extension]; the calls on the rooms
    it makes follow it in the trace. *)
Inductive Call (Num Room : Type) : Type :=
| CallAllDuplicateIdentifiers (raise_exception detailed : bool)
| CallPlanar (tol : Num) (raise_exception detailed : bool)
| CallSelfIntersecting (tol : Num) (raise_exception detailed : bool)
| CallDegenerateRooms (tol : Num) (raise_exception detailed : bool)
| CallSubFacesValid (tol ang_tol : Num) (raise_exception detailed : bool)
| CallSubFacesOverlapping (tol : Num) (raise_exception detailed : bool)
| CallRoomsSolid (tol ang_tol : Num) (raise_exception detailed : bool)
| CallUpsideDownFaces (ang_tol : Num) (raise_exception detailed : bool)
| CallRoomVolumeCollisions (tol : Num) (raise_exception detailed : bool)
| CallMissingAdjacencies (raise_exception detailed : bool)
| CallMatchingAdjacentAreas (tol : Num) (raise_exception detailed : bool)
| CallAllAirBoundariesAdjacent (raise_exception detailed : bool)
| CallInteriorConstructionsReversed (raise_exception detailed : bool)
| CallNoRoomHoles (raise_exception detailed : bool)
| CallRoomNoHoles (room : Room) (raise_exception detailed : bool)
| CallRoomApply (room : Room) (r_dict : PyVal).

Arguments CallAllDuplicateIdentifiers {Num Room}.
Arguments CallMissingAdjacencies {Num Room}.
Arguments CallAllAirBoundariesAdjacent {Num Room}.
Arguments CallInteriorConstructionsReversed {Num Room}.
Arguments CallNoRoomHoles {Num Room}.
Arguments CallPlanar {Num Room}.
Arguments CallSelfIntersecting {Num Room}.
Arguments CallDegenerateRooms {Num Room}.
Arguments CallSubFacesValid {Num Room}.
Arguments CallSubFacesOverlapping {Num Room}.
Arguments CallRoomsSolid {Num Room}.
Arguments CallUpsideDownFaces {Num Room}.
Arguments CallRoomVolumeCollisions {Num Room}.
Arguments CallMatchingAdjacentAreas {Num Room}.
Arguments CallRoomNoHoles {Num Room}.
Arguments CallRoomApply {Num Room}.

(** ** ModelDoe2Properties *)

Section ModelDoe2Properties.
Context {Num Room Other : Type}.
Context {host_checks : ModelChecks Num Room Other}.
Context {room_doe2 : RoomDoe2 Room}.
Context {honeybee_units : Units Num}.

Local Open Scope traced_scope.

Local Abbreviation Host := (Model Num Room Other).
Local Abbreviation T := (Traced (Call Num Room)).

(** The report that ends [check_for_extension], [check_generic] and
    [check_all] (the same seven lines in each of the three):
<<
    full_msgs = [msg for msg in msgs if msg]
    if detailed:
        return [m for msg in full_msgs for m in msg]
    full_msg = '\n'.join(full_msgs)
    if raise_exception and len(full_msgs) != 0:
        raise ValueError(full_msg)
    return full_msg
>> *)
Definition final_report (raise_exception detailed : bool)
    (msgs : list PyVal) : Result PyVal :=
  let full_msgs := filter truthy msgs in
  if detailed then
    rbind (flatten full_msgs) (fun ms => Ok (PList ms))
  else
    rbind (py_join newline full_msgs) (fun full_msg =>
    if raise_exception && negb (Nat.eqb (List.length full_msgs) 0)
    then Raise (ValueError full_msg)
    else Ok (PStr full_msg)).

(** The loop of [check_no_room_holes] over the rooms left to visit, with
    the messages gathered so far. *)
Fixpoint room_holes_loop (detailed : bool) (rs : list Room)
    (msgs : list PyVal) : T (list PyVal) :=
  match rs with
  | [] => ret msgs
  | room :: rest =>
      msg <- call (CallRoomNoHoles room false detailed)
                  (check_no_holes room false detailed) ;;
      msgs' <- lift (if detailed
                     then rbind (py_iter msg) (fun ms => Ok (msgs ++ ms))
                     else if ne_empty_str msg
                          then Ok (msgs ++ [msg])
                          else Ok msgs) ;;
      room_holes_loop detailed rest msgs'
  end.

Definition check_no_room_holes (h : Host)
    (raise_exception detailed : bool) : T PyVal :=
  let detailed := if raise_exception then false else detailed in
  msgs <- room_holes_loop detailed (rooms h) [] ;;
  if detailed then ret (PList msgs)
  else
    full_msg <- lift (py_join newline msgs) ;;
    if raise_exception && negb (Nat.eqb (List.length msgs) 0)
    then lift (Raise (ValueError full_msg))
    else ret (PStr full_msg).

Definition check_for_extension (h : Host)
    (raise_exception detailed : bool) : T PyVal :=
  let detailed := if raise_exception then false else detailed in
  let tol := tolerance h in
  let ang_tol := angle_tolerance h in
  e_tol <- lift (parse_distance_string "0.03ft" (units h)) ;;
  m1 <- call (CallAllDuplicateIdentifiers false detailed)
             (check_all_duplicate_identifiers h false detailed) ;;
  m2 <- call (CallPlanar tol false detailed)
             (check_planar h tol false detailed) ;;
  m3 <- call (CallSelfIntersecting tol false detailed)
             (check_self_intersecting h tol false detailed) ;;
  m4 <- call (CallDegenerateRooms e_tol false detailed)
             (check_degenerate_rooms h e_tol false detailed) ;;
  m5 <- call (CallSubFacesValid tol ang_tol false detailed)
             (check_sub_faces_valid h tol ang_tol false detailed) ;;
  m6 <- call (CallSubFacesOverlapping tol false detailed)
             (check_sub_faces_overlapping h tol false detailed) ;;
  m7 <- call (CallRoomsSolid tol ang_tol false detailed)
             (check_rooms_solid h tol ang_tol false detailed) ;;
  m8 <- call (CallUpsideDownFaces ang_tol false detailed)
             (check_upside_down_faces h ang_tol false detailed) ;;
  m9 <- call (CallRoomVolumeCollisions tol false detailed)
             (check_room_volume_collisions h tol false detailed) ;;
  m10 <- call (CallMissingAdjacencies false detailed)
              (check_missing_adjacencies h false detailed) ;;
  m11 <- call (CallMatchingAdjacentAreas tol false detailed)
              (check_matching_adjacent_areas h tol false detailed) ;;
  m12 <- call (CallAllAirBoundariesAdjacent false detailed)
              (check_all_air_boundaries_adjacent h false detailed) ;;
  m13 <- call (CallInteriorConstructionsReversed false detailed)
              (check_interior_constructions_reversed h false detailed) ;;
  m14 <- bind (call (CallNoRoomHoles false detailed) (Ok tt))
              (fun _ => check_no_room_holes h false detailed) ;;
  lift (final_report raise_exception detailed
          [m1; m2; m3; m4; m5; m6; m7; m8; m9; m10; m11; m12; m13; m14]).

Definition check_generic (h : Host)
    (raise_exception detailed : bool) : T PyVal :=
  let detailed := if raise_exception then false else detailed in
  lift (final_report raise_exception detailed []).

Definition check_all (h : Host)
    (raise_exception detailed : bool) : T PyVal :=
  let detailed := if raise_exception then false else detailed in
  lift (final_report raise_exception detailed []).

(** [to_dict] *)
Definition to_dict (h : Host) : PyVal :=
  PDict [("doe2", PDict [("type", PStr "ModelDoe2Properties")])].

(** The body of the [try] of [apply_properties_from_dict]:
    [room_dict['properties']['doe2']], and [None] on a KeyError. *)
Definition room_doe2_dict (room_dict : PyVal) : Result PyVal :=
  match rbind (getitem room_dict "properties")
              (fun p => getitem p "doe2") with
  | Raise (KeyError _) => Ok PNone
  | r => r
  end.

(** The first loop of [apply_properties_from_dict]. *)
Fixpoint room_doe2_dicts (room_dicts : list PyVal) : Result (list PyVal) :=
  match room_dicts with
  | [] => Ok []
  | room_dict :: rest =>
      rbind (room_doe2_dict room_dict) (fun d =>
      rbind (room_doe2_dicts rest) (fun ds => Ok (d :: ds)))
  end.

(** The second loop, over [zip(self.host.rooms, room_doe2_dicts)]: the
    rooms as they are afterwards, and the calls made with their outcome.
    A room whose application raises ends the loop. *)
Fixpoint apply_to_rooms (rs : list Room) (r_dicts : list PyVal)
    : list Room * T unit :=
  match rs, r_dicts with
  | room :: rs', r_dict :: ds' =>
      if is_none r_dict then
        let (rs'', t) := apply_to_rooms rs' ds' in (room :: rs'', t)
      else
        let (room', res) := room_apply_properties_from_dict room r_dict in
        match res with
        | Ok _ =>
            let (rs'', t) := apply_to_rooms rs' ds' in
            (room' :: rs'', (CallRoomApply room r_dict :: fst t, snd t))
        | Raise e =>
            (room' :: rs', ([CallRoomApply room r_dict], Raise e))
        end
  | _, _ => (rs, ret tt)
  end.

Definition with_rooms (h : Host) (rs : list Room) : Host :=
  mkModel (tolerance h) (angle_tolerance h) (units h) rs (other h).

Definition no_doe2_message : string :=
  "Dictionary possesses no ModelDoe2Properties.".

(** The assert statement that opens [apply_properties_from_dict]. *)
Definition assert_doe2 (data : PyVal) : Result unit :=
  rbind (getitem data "properties") (fun props =>
  rbind (py_in "doe2" props) (fun has =>
  if has then Ok tt else Raise (AssertionError no_doe2_message))).

(** ['rooms' in data and data['rooms'] is not None] *)
Definition has_rooms (data : PyVal) : Result bool :=
  rbind (py_in "rooms" data) (fun has =>
  if has then rbind (getitem data "rooms") (fun rv => Ok (negb (is_none rv)))
  else Ok false).

(** The host as it is after the call, the calls made on the rooms, and
    the outcome. *)
Definition apply_properties_from_dict (h : Host) (data : PyVal)
    : Host * T unit :=
  match assert_doe2 data with
  | Raise e => (h, lift (Raise e))
  | Ok _ =>
      match has_rooms data with
      | Raise e => (h, lift (Raise e))
      | Ok false => (h, ret tt)
      | Ok true =>
          match rbind (getitem data "rooms") (fun rv =>
                rbind (py_iter rv) room_doe2_dicts) with
          | Raise e => (h, lift (Raise e))
          | Ok r_dicts =>
              let (rs', t) := apply_to_rooms (rooms h) r_dicts in
              (with_rooms h rs', t)
          end
      end
  end.

End ModelDoe2Properties.

(** ** The collaborators' contract

    A check asked not to raise returns its findings in the requested
    shape: a string when [detailed] is false, a list of records when it is
    true. *)

Definition text_of (r : Result PyVal) : string :=
  match r with
  | Ok (PStr s) => s
  | _ => ""
  end.

Definition records_of (r : Result PyVal) : list PyVal :=
  match r with
  | Ok (PList l) => l
  | _ => []
  end.

Definition report_of (detailed : bool) (r : Result PyVal) : PyVal :=
  if detailed then PList (records_of r) else PStr (text_of r).

Definition honours (detailed : bool) (r : Result PyVal) : Prop :=
  r = Ok (report_of detailed r).

Definition nonempty (s : string) : bool := negb (String.eqb s "").

(** The merged report of a list of per-check results: the records of all,
    or the non-empty strings joined by newlines. *)
Definition merged_records (rs : list (Result PyVal)) : list PyVal :=
  List.concat (map records_of rs).

Definition merged_texts (rs : list (Result PyVal)) : list string :=
  filter nonempty (map text_of rs).

Definition merged_text (rs : list (Result PyVal)) : string :=
  String.concat newline (merged_texts rs).

Definition reports_issue (r : Result PyVal) : bool := nonempty (text_of r).

Section Contract.
Context {Num Room Other : Type}.
Context {host_checks : ModelChecks Num Room Other}.
Context {room_doe2 : RoomDoe2 Room}.
Context {honeybee_units : Units Num}.

Local Abbreviation Host := (Model Num Room Other).

(** The results of the rooms' hole checks, in room order. *)
Definition room_results (detailed : bool) (rs : list Room)
    : list (Result PyVal) :=
  map (fun room => check_no_holes room false detailed) rs.

Definition room_reports (h : Host) (detailed : bool) : list (Result PyVal) :=
  room_results detailed (rooms h).

(** The call of one room's hole check, as the loop makes it. *)
Definition room_call (detailed : bool) (room : Room) : Call Num Room :=
  CallRoomNoHoles room false detailed.

Definition rooms_contract (h : Host) : Prop :=
  forall room detailed,
    In room (rooms h) -> honours detailed (check_no_holes room false detailed).

Record host_contract (h : Host) : Prop := {
  units_parse :
    exists e_tol, parse_distance_string "0.03ft" (units h) = Ok e_tol;
  duplicate_identifiers_ok :
    forall d, honours d (check_all_duplicate_identifiers h false d);
  planar_ok :
    forall t d, honours d (check_planar h t false d);
  self_intersecting_ok :
    forall t d, honours d (check_self_intersecting h t false d);
  degenerate_rooms_ok :
    forall t d, honours d (check_degenerate_rooms h t false d);
  sub_faces_valid_ok :
    forall t a d, honours d (check_sub_faces_valid h t a false d);
  sub_faces_overlapping_ok :
    forall t d, honours d (check_sub_faces_overlapping h t false d);
  rooms_solid_ok :
    forall t a d, honours d (check_rooms_solid h t a false d);
  upside_down_faces_ok :
    forall a d, honours d (check_upside_down_faces h a false d);
  room_volume_collisions_ok :
    forall t d, honours d (check_room_volume_collisions h t false d);
  missing_adjacencies_ok :
    forall d, honours d (check_missing_adjacencies h false d);
  matching_adjacent_areas_ok :
    forall t d, honours d (check_matching_adjacent_areas h t false d);
  all_air_boundaries_adjacent_ok :
    forall d, honours d (check_all_air_boundaries_adjacent h false d);
  interior_constructions_reversed_ok :
    forall d, honours d (check_interior_constructions_reversed h false d);
  room_checks_ok : rooms_contract h
}.

(** The outcome of the module's own hole check when it is asked not to
    raise, as a per-check result. *)
Definition holes_result (h : Host) (detailed : bool) : Result PyVal :=
  Ok (if detailed then PList (merged_records (room_reports h detailed))
      else PStr (merged_text (room_reports h detailed))).

(** The results of the thirteen checks [check_for_extension] delegates to
    the host, in the order of the calls, with the arguments of the call
    sites. *)
Definition host_battery (h : Host) (e_tol : Num) (detailed : bool)
    : list (Result PyVal) :=
  let tol := tolerance h in
  let ang_tol := angle_tolerance h in
  [ check_all_duplicate_identifiers h false detailed;
    check_planar h tol false detailed;
    check_self_intersecting h tol false detailed;
    check_degenerate_rooms h e_tol false detailed;
    check_sub_faces_valid h tol ang_tol false detailed;
    check_sub_faces_overlapping h tol false detailed;
    check_rooms_solid h tol ang_tol false detailed;
    check_upside_down_faces h ang_tol false detailed;
    check_room_volume_collisions h tol false detailed;
    check_missing_adjacencies h false detailed;
    check_matching_adjacent_areas h tol false detailed;
    check_all_air_boundaries_adjacent h false detailed;
    check_interior_constructions_reversed h false detailed ].

(** The fourteen results [check_for_extension] appends to [msgs]. *)
Definition battery (h : Host) (e_tol : Num) (detailed : bool)
    : list (Result PyVal) :=
  host_battery h e_tol detailed ++ [holes_result h detailed].

(** Every finding there is to report: the results of the host's checks,
    then those of the rooms' hole checks. *)
Definition all_results (h : Host) (e_tol : Num) (detailed : bool)
    : list (Result PyVal) :=
  host_battery h e_tol detailed ++ room_reports h detailed.

(** Some check finds something when asked for messages. *)
Definition finds_issue (h : Host) (e_tol : Num) : Prop :=
  exists r, In r (all_results h e_tol false) /\ reports_issue r = true.

(** No check finds anything, in either shape. *)
Definition finds_nothing (h : Host) (e_tol : Num) : Prop :=
  forall r detailed,
    In r (all_results h e_tol detailed) ->
    text_of r = "" /\ records_of r = [].

(** The flag a check call was made with; the application of a room
    dictionary takes none. *)
Definition raise_flag (c : Call Num Room) : option bool :=
  match c with
  | CallAllDuplicateIdentifiers r _ | CallPlanar _ r _
  | CallSelfIntersecting _ r _ | CallDegenerateRooms _ r _
  | CallSubFacesValid _ _ r _ | CallSubFacesOverlapping _ r _
  | CallRoomsSolid _ _ r _ | CallUpsideDownFaces _ r _
  | CallRoomVolumeCollisions _ r _ | CallMissingAdjacencies r _
  | CallMatchingAdjacentAreas _ r _ | CallAllAirBoundariesAdjacent r _
  | CallInteriorConstructionsReversed r _ | CallNoRoomHoles r _
  | CallRoomNoHoles _ r _ => Some r
  | CallRoomApply _ _ => None
  end.

(** The calls of [check_for_extension] on the host, in source order. *)
Definition battery_calls (h : Host) (e_tol : Num) (detailed : bool)
    : list (Call Num Room) :=
  let tol := tolerance h in
  let ang_tol := angle_tolerance h in
  [ CallAllDuplicateIdentifiers false detailed;
    CallPlanar tol false detailed;
    CallSelfIntersecting tol false detailed;
    CallDegenerateRooms e_tol false detailed;
    CallSubFacesValid tol ang_tol false detailed;
    CallSubFacesOverlapping tol false detailed;
    CallRoomsSolid tol ang_tol false detailed;
    CallUpsideDownFaces ang_tol false detailed;
    CallRoomVolumeCollisions tol false detailed;
    CallMissingAdjacencies false detailed;
    CallMatchingAdjacentAreas tol false detailed;
    CallAllAirBoundariesAdjacent false detailed;
    CallInteriorConstructionsReversed false detailed;
    CallNoRoomHoles false detailed ].

Definition room_calls (h : Host) (detailed : bool) : list (Call Num Room) :=
  map (room_call detailed) (rooms h).

(** [detailed = False if raise_exception else detailed] *)
Definition effective (raise_exception detailed : bool) : bool :=
  if raise_exception then false else detailed.


(** A room dictionary of the honeybee schema: a dict whose ['properties'],
    when given, is a dict. *)
Definition room_dict_ok (room_dict : PyVal) : bool :=
  match room_dict with
  | PDict d =>
      match lookup "properties" d with
      | Some (PDict _) | None => true
      | Some _ => false
      end
  | _ => false
  end.







End Contract.

(** ** What a call stands for

    The application a recorded call denotes, read off the call alone: the
    method named by the call, applied to the arguments the call carries.
    A room's application of a dictionary returns None when it returns. *)
Section Answers.
Context {Num Room Other : Type}.
Context {host_checks : ModelChecks Num Room Other}.
Context {room_doe2 : RoomDoe2 Room}.
Context {honeybee_units : Units Num}.

Definition answer (h : Model Num Room Other) (c : Call Num Room)
    : Result PyVal :=
  match c with
  | CallAllDuplicateIdentifiers r d => check_all_duplicate_identifiers h r d
  | CallPlanar t r d => check_planar h t r d
  | CallSelfIntersecting t r d => check_self_intersecting h t r d
  | CallDegenerateRooms t r d => check_degenerate_rooms h t r d
  | CallSubFacesValid t a r d => check_sub_faces_valid h t a r d
  | CallSubFacesOverlapping t r d => check_sub_faces_overlapping h t r d
  | CallRoomsSolid t a r d => check_rooms_solid h t a r d
  | CallUpsideDownFaces a r d => check_upside_down_faces h a r d
  | CallRoomVolumeCollisions t r d => check_room_volume_collisions h t r d
  | CallMissingAdjacencies r d => check_missing_adjacencies h r d
  | CallMatchingAdjacentAreas t r d => check_matching_adjacent_areas h t r d
  | CallAllAirBoundariesAdjacent r d =>
      check_all_air_boundaries_adjacent h r d
  | CallInteriorConstructionsReversed r d =>
      check_interior_constructions_reversed h r d
  | CallNoRoomHoles r d => outcome (check_no_room_holes h r d)
  | CallRoomNoHoles room r d => check_no_holes room r d
  | CallRoomApply room r_dict =>
      match snd (room_apply_properties_from_dict room r_dict) with
      | Ok _ => Ok PNone
      | Raise e => Raise e
      end
  end.

(** A result that reports nothing, in either shape. *)
Definition silent (r : Result PyVal) : Prop :=
  text_of r = "" /\ records_of r = [].

(** Every check but the degenerate-room check (the fourth of the
    battery) is silent, and so are the rooms' hole checks. *)
Definition others_silent (h : Model Num Room Other) (e_tol : Num)
    (detailed : bool) : Prop :=
  (forall i r,
     nth_error (host_battery h e_tol detailed) i = Some r ->
     i <> 3 -> silent r) /\
  (forall r, In r (room_reports h detailed) -> silent r).

End Answers.

(** ** The battery as a list of steps

    The thirteen calls of [check_for_extension] on the host, each with the
    result the host gives, run one after the other as far as they
    return. *)
Section Steps.
Context {Num Room Other : Type}.
Context {host_checks : ModelChecks Num Room Other}.

Local Open Scope traced_scope.

Fixpoint run_all (steps : list (Call Num Room * Result PyVal))
    : Traced (Call Num Room) (list PyVal) :=
  match steps with
  | [] => ret []
  | (c, r) :: rest =>
      m <- call c r ;;
      ms <- run_all rest ;;
      ret (m :: ms)
  end.

Definition host_steps (h : Model Num Room Other) (e_tol : Num)
    (detailed : bool) : list (Call Num Room * Result PyVal) :=
  combine (removelast (battery_calls h e_tol detailed))
          (host_battery h e_tol detailed).

(** A step that returned. *)
Definition returned_step (step : Call Num Room * Result PyVal) : Prop :=
  exists m, snd step = Ok m.

End Steps.

(** ** A small host to run the definitions on

    Tolerances are rationals; a room has a name, a number of holes in its
    floor plate and the DOE-2 dictionary last applied to it; the rest of
    the model is the list of its non-planar faces.  Only the planarity
    check and the rooms' hole checks ever find anything. *)
Record DemoRoom : Type := mkDemoRoom {
  room_name : string;
  room_holes : nat;
  room_doe2_props : PyVal
}.

Definition demo_report (raise_exception detailed : bool) (msg : string)
    : Result PyVal :=
  if String.eqb msg "" then Ok (if detailed then PList [] else PStr "")
  else if raise_exception then Raise (ValueError msg)
  else Ok (if detailed then PList [PDict [("message", PStr msg)]]
           else PStr msg).

Definition demo_quiet (raise_exception detailed : bool) : Result PyVal :=
  demo_report raise_exception detailed "".

#[export] Instance demo_room_doe2 : RoomDoe2 DemoRoom := {
  check_no_holes room raise_exception detailed :=
    demo_report raise_exception detailed
      (if Nat.eqb (room_holes room) 0 then ""
       else ("Room " ++ room_name room ++ " has holes")%string);
  room_apply_properties_from_dict room r_dict :=
    (mkDemoRoom (room_name room) (room_holes room) r_dict, Ok tt)
}.

#[export] Instance demo_checks : ModelChecks Q DemoRoom (list string) := {
  check_all_duplicate_identifiers _ r d := demo_quiet r d;
  check_planar h _ r d :=
    demo_report r d (String.concat newline
      (map (fun f => ("Face " ++ f ++ " is not planar")%string) (other h)));
  check_self_intersecting _ _ r d := demo_quiet r d;
  check_degenerate_rooms _ _ r d := demo_quiet r d;
  check_sub_faces_valid _ _ _ r d := demo_quiet r d;
  check_sub_faces_overlapping _ _ r d := demo_quiet r d;
  check_rooms_solid _ _ _ r d := demo_quiet r d;
  check_upside_down_faces _ _ r d := demo_quiet r d;
  check_room_volume_collisions _ _ r d := demo_quiet r d;
  check_missing_adjacencies _ r d := demo_quiet r d;
  check_matching_adjacent_areas _ _ r d := demo_quiet r d;
  check_all_air_boundaries_adjacent _ r d := demo_quiet r d;
  check_interior_constructions_reversed _ r d := demo_quiet r d
}.

(** 0.03 ft is 0.009144 m; the demo knows metres and feet only. *)
#[export] Instance demo_units : Units Q := {
  parse_distance_string value destination_units :=
    if String.eqb value "0.03ft" then
      if String.eqb destination_units "Meters" then Ok (9144 # 1000000)%Q
      else if String.eqb destination_units "Feet" then Ok (3 # 100)%Q
      else Raise (ValueError "unknown units")
    else Raise (ValueError "unsupported")
}.

Definition demo_rooms : list DemoRoom :=
  [ mkDemoRoom "A" 0 PNone; mkDemoRoom "B" 1 PNone; mkDemoRoom "C" 2 PNone ].

(** A host with one non-planar face and two rooms with holes. *)
Definition demo_host : Model Q DemoRoom (list string) :=
  mkModel (1 # 100)%Q (1 # 1)%Q "Meters" demo_rooms ["F1"].

(** A host on which no check finds anything. *)
Definition clean_host : Model Q DemoRoom (list string) :=
  mkModel (1 # 100)%Q (1 # 1)%Q "Meters" [mkDemoRoom "A" 0 PNone] [].

Definition demo_room_dict (v : string) : PyVal :=
  PDict [("identifier", PStr v);
         ("properties", PDict [("doe2", PDict [("version", PStr v)])])].


Definition demo_properties : list (string * PyVal) :=
  [("type", PStr "ModelProperties");
   ("doe2", PDict [("type", PStr "ModelDoe2Properties")])].

Definition demo_entries (room_dicts : PyVal) : list (string * PyVal) :=
  [("type", PStr "Model");
   ("properties", PDict demo_properties);
   ("rooms", room_dicts)].

Definition demo_data (room_dicts : PyVal) : PyVal :=
  PDict (demo_entries room_dicts).


Definition demo_messages : list string :=
  ["Face F1 is not planar"; "Room B has holes"; "Room C has holes"].

(** ** A host whose degenerate-room check looks at its tolerance

    The rest of the model is the length of its shortest edge; the
    degenerate-room check reports when that edge is shorter than the
    tolerance it is given, and no other check finds anything. *)
#[export] Instance edge_checks : ModelChecks Q DemoRoom Q := {
  check_all_duplicate_identifiers _ r d := demo_quiet r d;
  check_planar _ _ r d := demo_quiet r d;
  check_self_intersecting _ _ r d := demo_quiet r d;
  check_degenerate_rooms h t r d :=
    demo_report r d
      (if Qle_bool t (other h) then "" else "Room A is degenerate");
  check_sub_faces_valid _ _ _ r d := demo_quiet r d;
  check_sub_faces_overlapping _ _ r d := demo_quiet r d;
  check_rooms_solid _ _ _ r d := demo_quiet r d;
  check_upside_down_faces _ _ r d := demo_quiet r d;
  check_room_volume_collisions _ _ r d := demo_quiet r d;
  check_missing_adjacencies _ r d := demo_quiet r d;
  check_matching_adjacent_areas _ _ r d := demo_quiet r d;
  check_all_air_boundaries_adjacent _ r d := demo_quiet r d;
  check_interior_constructions_reversed _ r d := demo_quiet r d
}.

(** A host in metres with tolerance 0.01 and a shortest edge of length
    [edge]. *)
Definition edge_host (edge : Q) : Model Q DemoRoom Q :=
  mkModel (1 # 100)%Q (1 # 1)%Q "Meters" [mkDemoRoom "A" 0 PNone] edge.

(** ** Collaborators that misbehave

    A room whose hole check raises or answers with whatever it holds, and
    whose application of a dictionary may raise; a host whose
    self-intersection check raises the exception it holds, if any, and
    whose units may be unknown. *)
Record OddRoom : Type := mkOddRoom {
  odd_name : string;
  hole_check_raises : option Exn;
  hole_check_answer : PyVal;
  apply_raises : option Exn;
  odd_doe2_props : PyVal
}.

#[export] Instance odd_room_doe2 : RoomDoe2 OddRoom := {
  check_no_holes room raise_exception detailed :=
    match hole_check_raises room with
    | Some e => Raise e
    | None => Ok (hole_check_answer room)
    end;
  room_apply_properties_from_dict room r_dict :=
    match apply_raises room with
    | Some e => (room, Raise e)
    | None =>
        (mkOddRoom (odd_name room) (hole_check_raises room)
           (hole_check_answer room) None r_dict, Ok tt)
    end
}.

#[export] Instance odd_checks : ModelChecks Q OddRoom (option Exn) := {
  check_all_duplicate_identifiers _ r d := demo_quiet r d;
  check_planar _ _ r d := demo_quiet r d;
  check_self_intersecting h _ r d :=
    match other h with
    | Some e => Raise e
    | None => demo_quiet r d
    end;
  check_degenerate_rooms _ _ r d := demo_quiet r d;
  check_sub_faces_valid _ _ _ r d := demo_quiet r d;
  check_sub_faces_overlapping _ _ r d := demo_quiet r d;
  check_rooms_solid _ _ _ r d := demo_quiet r d;
  check_upside_down_faces _ _ r d := demo_quiet r d;
  check_room_volume_collisions _ _ r d := demo_quiet r d;
  check_missing_adjacencies _ r d := demo_quiet r d;
  check_matching_adjacent_areas _ _ r d := demo_quiet r d;
  check_all_air_boundaries_adjacent _ r d := demo_quiet r d;
  check_interior_constructions_reversed _ r d := demo_quiet r d
}.

Definition quiet_room (name : string) : OddRoom :=
  mkOddRoom name None (PStr "") None PNone.

(** A room whose hole check raises. *)
Definition raising_room : OddRoom :=
  mkOddRoom "R" (Some (OtherError "RuntimeError")) (PStr "") None PNone.

(** A room whose hole check answers None. *)
Definition none_room : OddRoom :=
  mkOddRoom "N" None PNone None PNone.


Definition odd_host (units : string) (rooms : list OddRoom)
    (failure : option Exn) : Model Q OddRoom (option Exn) :=
  mkModel (1 # 100)%Q (1 # 1)%Q units rooms failure.

(** ** Python values: joining and flattening well-shaped reports *)

Lemma strings_of_strs (ss : list string) : strings_of (map PStr ss) = Some ss.
Proof.
  induction ss as [| s ss IH]; simpl; [reflexivity |].
  now rewrite IH.
Qed.

Lemma filter_truthy_strs (ss : list string) :
  filter truthy (map PStr ss) = map PStr (filter nonempty ss).
Proof.
  induction ss as [| s ss IH]; simpl; [reflexivity |].
  unfold nonempty at 1. destruct (String.eqb s ""); simpl; now rewrite IH.
Qed.

Lemma flatten_truthy_lists (ls : list (list PyVal)) :
  flatten (filter truthy (map PList ls)) = Ok (List.concat ls).
Proof.
  induction ls as [| l ls IH]; simpl; [reflexivity |].
  destruct l as [| x l]; simpl; [exact IH |].
  now rewrite IH.
Qed.

Lemma py_join_strs (sep : string) (ss : list string) :
  py_join sep (map PStr ss) = Ok (String.concat sep ss).
Proof. unfold py_join. now rewrite strings_of_strs. Qed.

Lemma length_map_strs (ss : list string) :
  List.length (map PStr ss) = List.length ss.
Proof. apply length_map. Qed.

(** ** The traced computations: one step at a time *)

Section TracedFacts.
Variable C : Type.

Lemma bind_call_ok {A B} (c : C) (a : A) (f : A -> Traced C B) :
  bind (call c (Ok a)) f = (c :: trace (f a), outcome (f a)).
Proof. unfold bind, call, trace, outcome. now destruct (f a). Qed.

Lemma bind_call_prepend {A B} (c : C) (a : A) (f : A -> Traced C B) :
  bind (call c (Ok a)) f = prepend c (f a).
Proof. unfold bind, call, prepend. now destruct (f a). Qed.

Lemma bind_lift_ok {A B} (a : A) (f : A -> Traced C B) :
  bind (lift (Ok a)) f = f a.
Proof. unfold bind, lift. now destruct (f a). Qed.

Lemma bind_raise {A B} (l : list C) (e : Exn) (f : A -> Traced C B) :
  bind (l, Raise e) f = (l, Raise e).
Proof. reflexivity. Qed.

Lemma bind_ok {A B} (l : list C) (a : A) (f : A -> Traced C B) :
  bind (l, Ok a) f = (l ++ trace (f a), outcome (f a)).
Proof. unfold bind, trace, outcome. now destruct (f a). Qed.

(** A computation that returns went through every step. *)
Lemma bind_returns {A B} (m : Traced C A) (f : A -> Traced C B) (b : B) :
  outcome (bind m f) = Ok b ->
  exists a, outcome m = Ok a /\ outcome (f a) = Ok b.
Proof.
  destruct m as [l [a | e]]; [rewrite bind_ok | rewrite bind_raise];
    unfold outcome; simpl; intros Hb; [| discriminate].
  now exists a.
Qed.

(** A call in the trace was made by the first part or, the first part
    having returned, by the rest. *)
Lemma bind_trace {A B} (m : Traced C A) (f : A -> Traced C B) (c : C) :
  In c (trace (bind m f)) ->
  In c (trace m) \/ exists a, outcome m = Ok a /\ In c (trace (f a)).
Proof.
  destruct m as [l [a | e]]; [rewrite bind_ok | rewrite bind_raise];
    unfold trace, outcome; simpl; intros Hc; [| now left].
  apply in_app_or in Hc. destruct Hc as [Hc | Hc]; [now left | right].
  now exists a.
Qed.

End TracedFacts.

(** ** The final report on well-shaped results *)

Lemma reports_of_texts (rs : list (Result PyVal)) :
  map (report_of false) rs = map PStr (map text_of rs).
Proof. now rewrite map_map. Qed.

Lemma reports_of_records (rs : list (Result PyVal)) :
  map (report_of true) rs = map PList (map records_of rs).
Proof. now rewrite map_map. Qed.

Lemma final_report_texts (raise_exception : bool)
    (rs : list (Result PyVal)) :
  final_report raise_exception false (map (report_of false) rs) =
  if raise_exception && negb (Nat.eqb (List.length (merged_texts rs)) 0)
  then Raise (ValueError (merged_text rs))
  else Ok (PStr (merged_text rs)).
Proof.
  unfold final_report. rewrite reports_of_texts, filter_truthy_strs.
  rewrite py_join_strs, length_map_strs. reflexivity.
Qed.

Lemma final_report_records (raise_exception : bool)
    (rs : list (Result PyVal)) :
  final_report raise_exception true (map (report_of true) rs) =
  Ok (PList (merged_records rs)).
Proof.
  unfold final_report. rewrite reports_of_records, flatten_truthy_lists.
  reflexivity.
Qed.

(** With the raise flag, whatever the messages, the report that is
    returned is a string. *)
Lemma final_report_raise_str (msgs : list PyVal) (v : PyVal) :
  final_report true false msgs = Ok v -> exists s, v = PStr s.
Proof.
  unfold final_report.
  destruct (py_join newline (filter truthy msgs)) as [s | e]; simpl;
    [| discriminate].
  destruct (negb (Nat.eqb (List.length (filter truthy msgs)) 0));
    [discriminate |].
  intros [= <-]. now exists s.
Qed.

Lemma merged_texts_nil_iff (rs : list (Result PyVal)) :
  merged_texts rs = [] <-> forall r, In r rs -> reports_issue r = false.
Proof.
  unfold merged_texts, reports_issue.
  induction rs as [| r rs IH]; simpl.
  - split; [intros _ r [] | reflexivity].
  - destruct (nonempty (text_of r)) eqn:Hr.
    + split; [discriminate |].
      intros H. specialize (H r (or_introl eq_refl)). congruence.
    + rewrite IH. split.
      * intros H r' [<- | Hin]; [exact Hr | now apply H].
      * intros H r' Hin. apply H. now right.
Qed.

Lemma merged_texts_issue (rs : list (Result PyVal)) :
  (exists r, In r rs /\ reports_issue r = true) ->
  negb (Nat.eqb (List.length (merged_texts rs)) 0) = true.
Proof.
  intros [r [Hin Hr]].
  destruct (merged_texts rs) as [| s ss] eqn:Hm; [| reflexivity].
  apply merged_texts_nil_iff with (r := r) in Hm; [congruence | exact Hin].
Qed.

(** ** The loop of check_no_room_holes *)

Section RoomHoles.
Context {Num Room Other : Type}.
Context {host_checks : ModelChecks Num Room Other}.
Context {room_doe2 : RoomDoe2 Room}.
Context {honeybee_units : Units Num}.

Local Abbreviation Host := (Model Num Room Other).

Lemma room_holes_loop_records (rs : list Room) (msgs : list PyVal) :
  (forall room, In room rs -> honours true (check_no_holes room false true)) ->
  room_holes_loop (Num := Num) true rs msgs =
  (map (room_call true) rs,
   Ok (msgs ++ merged_records (room_results true rs))).
Proof.
  revert msgs.
  induction rs as [| room rs IH]; intros msgs Hrs; cbn [room_holes_loop].
  - unfold ret, merged_records. simpl. now rewrite app_nil_r.
  - pose proof (Hrs room (or_introl eq_refl)) as Hroom.
    unfold honours in Hroom. rewrite Hroom at 1.
    rewrite bind_call_ok. cbn [report_of py_iter rbind].
    rewrite bind_lift_ok.
    rewrite IH by (intros r Hr; apply Hrs; now right).
    unfold trace, outcome, merged_records. simpl.
    now rewrite <- app_assoc.
Qed.

Lemma room_holes_loop_texts (rs : list Room) (msgs : list PyVal) :
  (forall room, In room rs -> honours false (check_no_holes room false false)) ->
  room_holes_loop (Num := Num) false rs msgs =
  (map (room_call false) rs,
   Ok (msgs ++ map PStr (merged_texts (room_results false rs)))).
Proof.
  revert msgs.
  induction rs as [| room rs IH]; intros msgs Hrs; cbn [room_holes_loop].
  - unfold ret, merged_texts. simpl. now rewrite app_nil_r.
  - pose proof (Hrs room (or_introl eq_refl)) as Hroom.
    unfold honours in Hroom. rewrite Hroom at 1.
    rewrite bind_call_ok. cbn [report_of ne_empty_str].
    unfold merged_texts. cbn [room_results map filter].
    fold (nonempty (text_of (check_no_holes room false false))).
    destruct (nonempty (text_of (check_no_holes room false false)));
      cbn [negb]; rewrite bind_lift_ok;
      rewrite IH by (intros r Hr; apply Hrs; now right);
      unfold trace, outcome, merged_texts; simpl; [| reflexivity].
    now rewrite <- app_assoc.
Qed.

(** What [check_no_room_holes] does on rooms that honour the contract. *)
Lemma check_no_room_holes_run (h : Host) (raise_exception detailed : bool) :
  rooms_contract h ->
  check_no_room_holes h raise_exception detailed =
  (room_calls h (effective raise_exception detailed),
   if effective raise_exception detailed
   then Ok (PList (merged_records (room_reports h true)))
   else if raise_exception
           && negb (Nat.eqb (List.length (merged_texts (room_reports h false))) 0)
        then Raise (ValueError (merged_text (room_reports h false)))
        else Ok (PStr (merged_text (room_reports h false)))).
Proof.
  intros Hc. unfold check_no_room_holes.
  change (if raise_exception then false else detailed)
    with (effective raise_exception detailed).
  destruct (effective raise_exception detailed).
  - rewrite room_holes_loop_records by (intros r Hr; now apply Hc).
    rewrite bind_ok. unfold ret, trace, outcome. simpl.
    now rewrite app_nil_r.
  - rewrite room_holes_loop_texts by (intros r Hr; now apply Hc).
    rewrite bind_ok. cbn [app]. rewrite py_join_strs, bind_lift_ok.
    rewrite length_map_strs.
    unfold trace, outcome, room_calls, room_reports, merged_text.
    destruct (raise_exception
              && negb (Nat.eqb (List.length
                         (merged_texts (room_results false (rooms h)))) 0));
      simpl; now rewrite app_nil_r.
Qed.

End RoomHoles.

(** ** The battery of check_for_extension *)

Section Battery.
Context {Num Room Other : Type}.
Context {host_checks : ModelChecks Num Room Other}.
Context {room_doe2 : RoomDoe2 Room}.
Context {honeybee_units : Units Num}.

Local Abbreviation Host := (Model Num Room Other).

(** One delegated call whose result honours the contract. *)
Ltac delegated H :=
  let E := fresh "E" in
  pose proof H as E; unfold honours in E; rewrite E; clear E;
  rewrite bind_call_prepend.

Lemma holes_report (h : Host) (detailed : bool) :
  rooms_contract h ->
  check_no_room_holes h false detailed =
  (room_calls h detailed, Ok (report_of detailed (holes_result h detailed))).
Proof.
  intros Hc. rewrite check_no_room_holes_run by assumption.
  unfold effective, holes_result. now destruct detailed.
Qed.

(** What [check_for_extension] does on a host that honours the contract:
    the calls it makes, and the report it builds from their results. *)
Lemma check_for_extension_run (h : Host) (raise_exception detailed : bool)
    (e_tol : Num) :
  host_contract h ->
  parse_distance_string "0.03ft" (units h) = Ok e_tol ->
  check_for_extension h raise_exception detailed =
  (battery_calls h e_tol (effective raise_exception detailed)
     ++ room_calls h (effective raise_exception detailed),
   final_report raise_exception (effective raise_exception detailed)
     (map (report_of (effective raise_exception detailed))
          (battery h e_tol (effective raise_exception detailed)))).
Proof.
  intros Hc Hparse. unfold check_for_extension.
  change (if raise_exception then false else detailed)
    with (effective raise_exception detailed).
  set (d := effective raise_exception detailed).
  rewrite Hparse, bind_lift_ok.
  delegated (duplicate_identifiers_ok Hc d).
  delegated (planar_ok Hc (tolerance h) d).
  delegated (self_intersecting_ok Hc (tolerance h) d).
  delegated (degenerate_rooms_ok Hc e_tol d).
  delegated (sub_faces_valid_ok Hc (tolerance h) (angle_tolerance h) d).
  delegated (sub_faces_overlapping_ok Hc (tolerance h) d).
  delegated (rooms_solid_ok Hc (tolerance h) (angle_tolerance h) d).
  delegated (upside_down_faces_ok Hc (angle_tolerance h) d).
  delegated (room_volume_collisions_ok Hc (tolerance h) d).
  delegated (missing_adjacencies_ok Hc d).
  delegated (matching_adjacent_areas_ok Hc (tolerance h) d).
  delegated (all_air_boundaries_adjacent_ok Hc d).
  delegated (interior_constructions_reversed_ok Hc d).
  rewrite bind_call_prepend, holes_report by apply (room_checks_ok Hc).
  unfold prepend at 14. cbn [fst snd]. rewrite bind_ok.
  unfold prepend, trace, outcome, lift, battery_calls, battery, host_battery.
  cbn [fst snd map app]. now rewrite app_nil_r.
Qed.

End Battery.

(** ** The hole check's own report inside the merged report

    The fourteenth message is itself the merge of the rooms' results, so
    the merged report is the merge of every result there is. *)

Lemma merged_texts_app (rs rs' : list (Result PyVal)) :
  merged_texts (rs ++ rs') = merged_texts rs ++ merged_texts rs'.
Proof. unfold merged_texts. now rewrite map_app, filter_app. Qed.

Lemma merged_records_app (rs rs' : list (Result PyVal)) :
  merged_records (rs ++ rs') = merged_records rs ++ merged_records rs'.
Proof. unfold merged_records. now rewrite map_app, concat_app. Qed.

Lemma merged_texts_nonempty (rs : list (Result PyVal)) :
  Forall (fun s => nonempty s = true) (merged_texts rs).
Proof.
  unfold merged_texts. apply Forall_forall. intros s Hs.
  now apply filter_In in Hs.
Qed.

Lemma concat_cons (sep s : string) (ss : list string) :
  ss <> [] ->
  String.concat sep (s :: ss) = (s ++ sep ++ String.concat sep ss)%string.
Proof. destruct ss; [congruence | reflexivity]. Qed.

Lemma concat_nonempty (sep : string) (ss : list string) :
  ss <> [] -> Forall (fun s => nonempty s = true) ss ->
  nonempty (String.concat sep ss) = true.
Proof.
  destruct ss as [| s ss]; [congruence |]. intros _ Hss.
  inversion Hss as [| ? ? Hs _]; subst.
  destruct s as [| c s]; [discriminate |].
  destruct ss; reflexivity.
Qed.

(** Joining a joined tail is joining the whole. *)
Lemma concat_concat (sep : string) (ss ss' : list string) :
  ss' <> [] ->
  String.concat sep (ss ++ [String.concat sep ss']) =
  String.concat sep (ss ++ ss').
Proof.
  intros Hss'. induction ss as [| s ss IH]; [reflexivity |].
  cbn [app]. rewrite !concat_cons, IH; [reflexivity | |];
    intros H; apply app_eq_nil in H; destruct H; congruence.
Qed.

Section Findings.
Context {Num Room Other : Type}.
Context {host_checks : ModelChecks Num Room Other}.
Context {room_doe2 : RoomDoe2 Room}.
Context {honeybee_units : Units Num}.

Local Abbreviation Host := (Model Num Room Other).

Lemma holes_texts (h : Host) :
  merged_texts [holes_result h false] =
  match merged_texts (room_reports h false) with
  | [] => []
  | _ :: _ => [merged_text (room_reports h false)]
  end.
Proof.
  unfold holes_result, merged_text.
  pose proof (merged_texts_nonempty (room_reports h false)) as Hne.
  destruct (merged_texts (room_reports h false)) as [| s ss] eqn:Hm;
    [reflexivity |].
  unfold merged_texts at 1. cbn [map text_of filter].
  now rewrite concat_nonempty.
Qed.

Lemma battery_texts_length (h : Host) (e_tol : Num) :
  Nat.eqb (List.length (merged_texts (battery h e_tol false))) 0 =
  Nat.eqb (List.length (merged_texts (all_results h e_tol false))) 0.
Proof.
  unfold battery, all_results. rewrite !merged_texts_app, holes_texts.
  rewrite !length_app.
  destruct (merged_texts (room_reports h false)); simpl;
    destruct (List.length (merged_texts (host_battery h e_tol false)));
    reflexivity.
Qed.

Lemma battery_text (h : Host) (e_tol : Num) :
  merged_text (battery h e_tol false) =
  merged_text (all_results h e_tol false).
Proof.
  unfold merged_text, battery, all_results.
  rewrite !merged_texts_app, holes_texts. unfold merged_text.
  destruct (merged_texts (room_reports h false)) as [| s ss] eqn:Hm;
    [reflexivity |].
  now apply concat_concat.
Qed.

Lemma battery_records (h : Host) (e_tol : Num) :
  merged_records (battery h e_tol true) =
  merged_records (all_results h e_tol true).
Proof.
  unfold battery, all_results. rewrite !merged_records_app. f_equal.
  unfold holes_result, merged_records at 1. simpl. apply app_nil_r.
Qed.

(** The outcome of [check_for_extension] on a host that honours the
    contract, in terms of every finding. *)
Lemma check_for_extension_outcome (h : Host)
    (raise_exception detailed : bool) (e_tol : Num) :
  host_contract h ->
  parse_distance_string "0.03ft" (units h) = Ok e_tol ->
  outcome (check_for_extension h raise_exception detailed) =
  if effective raise_exception detailed
  then Ok (PList (merged_records (all_results h e_tol true)))
  else if raise_exception
          && negb (Nat.eqb (List.length
                     (merged_texts (all_results h e_tol false))) 0)
       then Raise (ValueError (merged_text (all_results h e_tol false)))
       else Ok (PStr (merged_text (all_results h e_tol false))).
Proof.
  intros Hc Hparse.
  rewrite (check_for_extension_run raise_exception detailed Hc Hparse).
  unfold outcome. cbn [snd].
  destruct (effective raise_exception detailed).
  - now rewrite final_report_records, battery_records.
  - now rewrite final_report_texts, battery_texts_length, battery_text.
Qed.

Lemma check_for_extension_trace (h : Host)
    (raise_exception detailed : bool) (e_tol : Num) :
  host_contract h ->
  parse_distance_string "0.03ft" (units h) = Ok e_tol ->
  trace (check_for_extension h raise_exception detailed) =
  battery_calls h e_tol (effective raise_exception detailed)
    ++ room_calls h (effective raise_exception detailed).
Proof.
  intros Hc Hparse.
  now rewrite (check_for_extension_run raise_exception detailed Hc Hparse).
Qed.

End Findings.

Lemma merged_texts_silent (rs : list (Result PyVal)) :
  (forall r, In r rs -> text_of r = "") -> merged_texts rs = [].
Proof.
  intros H. apply merged_texts_nil_iff. intros r Hr.
  unfold reports_issue. now rewrite (H r Hr).
Qed.

Lemma merged_records_silent (rs : list (Result PyVal)) :
  (forall r, In r rs -> records_of r = []) -> merged_records rs = [].
Proof.
  unfold merged_records. induction rs as [| r rs IH]; intros H; simpl;
    [reflexivity |].
  rewrite (H r (or_introl eq_refl)), IH; [reflexivity |].
  intros r' Hr'. apply H. now right.
Qed.

(** ** The validation aggregator: the claims *)

Section Aggregator.
Context {Num Room Other : Type}.
Context {host_checks : ModelChecks Num Room Other}.
Context {room_doe2 : RoomDoe2 Room}.
Context {honeybee_units : Units Num}.

Local Abbreviation Host := (Model Num Room Other).

(** C1.  On a host whose collaborators honour their contract and on which
    at least one check of the battery (a check of the host, or the hole
    check of a room) reports an issue, [check_for_extension] with
    [raise_exception=True] raises the ValueError (the spec's
    ValidationError) that carries the newline-joined message of all
    findings; with [raise_exception=False] it returns, whatever the
    checks find and whatever [detailed] is. *)
Theorem check_for_extension_raises_on_issue (h : Host) (detailed : bool) :
  host_contract h ->
  exists e_tol,
    parse_distance_string "0.03ft" (units h) = Ok e_tol /\
    (finds_issue h e_tol ->
     outcome (check_for_extension h true detailed) =
     Raise (ValueError (merged_text (all_results h e_tol false)))) /\
    (exists v, outcome (check_for_extension h false detailed) = Ok v).
Proof.
  intros Hc. destruct (units_parse Hc) as [e_tol He].
  exists e_tol. split; [exact He |]. split.
  - intros Hissue.
    rewrite (check_for_extension_outcome true detailed Hc He).
    cbn [effective andb].
    now rewrite (merged_texts_issue _ Hissue).
  - rewrite (check_for_extension_outcome false detailed Hc He).
    cbn [effective andb]. destruct detailed; eexists; reflexivity.
Qed.

(** C4.  On a host whose collaborators honour their contract, with
    [detailed] as it stands after the first line of the method: when it is
    true [check_for_extension] returns the records of all checks, flat and
    in call order; when it is false the report is the non-empty messages
    joined by newlines, which is what is returned whenever the method
    returns, and it does return when [raise_exception] is false.  When no
    check finds anything the two non-raising calls return [""] and [[]]. *)
Theorem check_for_extension_report (h : Host)
    (raise_exception detailed : bool) :
  host_contract h ->
  exists e_tol,
    parse_distance_string "0.03ft" (units h) = Ok e_tol /\
    (effective raise_exception detailed = true ->
     outcome (check_for_extension h raise_exception detailed) =
     Ok (PList (merged_records (all_results h e_tol true)))) /\
    (effective raise_exception detailed = false ->
     forall v,
       outcome (check_for_extension h raise_exception detailed) = Ok v ->
       v = PStr (merged_text (all_results h e_tol false))) /\
    outcome (check_for_extension h false false) =
      Ok (PStr (merged_text (all_results h e_tol false))) /\
    (finds_nothing h e_tol ->
     outcome (check_for_extension h false false) = Ok (PStr "") /\
     outcome (check_for_extension h false true) = Ok (PList [])).
Proof.
  intros Hc. destruct (units_parse Hc) as [e_tol He].
  exists e_tol. split; [exact He |].
  repeat split.
  - intros Heff.
    now rewrite (check_for_extension_outcome _ _ Hc He), Heff.
  - intros Heff v.
    rewrite (check_for_extension_outcome _ _ Hc He), Heff.
    destruct (raise_exception && _); [discriminate | now intros [= <-]].
  - now rewrite (check_for_extension_outcome _ _ Hc He).
  - rewrite (check_for_extension_outcome _ _ Hc He). cbn [effective andb].
    unfold merged_text. rewrite merged_texts_silent; [reflexivity |].
    intros r Hr. now apply (H r false).
  - rewrite (check_for_extension_outcome _ _ Hc He). cbn [effective].
    rewrite merged_records_silent; [reflexivity |].
    intros r Hr. now apply (H r true).
Qed.

(** C5.  On a host whose collaborators honour their contract,
    [check_for_extension] makes exactly these calls, once each and in
    this order: duplicate identifiers, planarity, self-intersection,
    degenerate rooms, sub-face validity, sub-face overlap, room solidity,
    upside-down faces, room volume collisions, missing adjacencies,
    matching adjacent areas, air boundaries, reversed interior
    constructions of the energy properties, then its own
    [check_no_room_holes] (which visits the rooms in order).  Every call
    is made with the raise flag false.  The results the report is built
    from are the answers to these very calls, in the order of the calls,
    and the report is their merge in that order: all their records, or
    their non-empty messages joined by newlines (raised as a ValueError
    when asked to raise and there is one). *)
Theorem check_for_extension_call_order (h : Host)
    (raise_exception detailed : bool) :
  host_contract h ->
  exists e_tol,
    parse_distance_string "0.03ft" (units h) = Ok e_tol /\
    trace (check_for_extension h raise_exception detailed) =
      battery_calls h e_tol (effective raise_exception detailed)
        ++ room_calls h (effective raise_exception detailed) /\
    (forall c,
       In c (trace (check_for_extension h raise_exception detailed)) ->
       raise_flag c = Some false) /\
    outcome (check_for_extension h raise_exception detailed) =
      final_report raise_exception (effective raise_exception detailed)
        (map (report_of (effective raise_exception detailed))
             (battery h e_tol (effective raise_exception detailed))) /\
    map (answer h)
        (battery_calls h e_tol (effective raise_exception detailed)) =
      battery h e_tol (effective raise_exception detailed) /\
    map (answer h) (room_calls h (effective raise_exception detailed)) =
      room_reports h (effective raise_exception detailed) /\
    outcome (check_for_extension h raise_exception detailed) =
      (let answers :=
         map (answer h)
             (battery_calls h e_tol (effective raise_exception detailed)) in
       if effective raise_exception detailed
       then Ok (PList (merged_records answers))
       else if raise_exception
               && negb (Nat.eqb (List.length (merged_texts answers)) 0)
            then Raise (ValueError (merged_text answers))
            else Ok (PStr (merged_text answers))).
Proof.
  intros Hc. destruct (units_parse Hc) as [e_tol He].
  exists e_tol. split; [exact He |].
  set (d := effective raise_exception detailed).
  assert (Hanswers : map (answer h) (battery_calls h e_tol d) =
                     battery h e_tol d).
  { unfold battery_calls, battery, host_battery. cbn [map answer app].
    rewrite holes_report by apply (room_checks_ok Hc).
    unfold outcome, holes_result. cbn [snd]. now destruct d. }
  cbv zeta. rewrite Hanswers.
  rewrite (check_for_extension_run raise_exception detailed Hc He).
  fold d. unfold trace, outcome. cbn [fst snd].
  split; [reflexivity |]. split; [| split; [reflexivity |]].
  - intros c Hin. apply in_app_or in Hin. destruct Hin as [Hin | Hin].
    + unfold battery_calls in Hin. cbn [In] in Hin.
      repeat (destruct Hin as [<- | Hin]; [reflexivity |]).
      destruct Hin.
    + unfold room_calls in Hin. apply in_map_iff in Hin.
      destruct Hin as [room [<- _]]. reflexivity.
  - split; [reflexivity |]. split.
    + unfold room_calls, room_reports, room_results. now rewrite map_map.
    + destruct d.
      * apply final_report_records.
      * apply final_report_texts.
Qed.

End Aggregator.

(** ** Calls and outcomes without any assumption on the collaborators *)

Section AnyHost.
Context {Num Room Other : Type}.
Context {host_checks : ModelChecks Num Room Other}.
Context {room_doe2 : RoomDoe2 Room}.
Context {honeybee_units : Units Num}.

Local Abbreviation Host := (Model Num Room Other).

Lemma trace_call {A} (c c' : Call Num Room) (r : Result A) :
  In c (trace (call c' r)) -> c = c'.
Proof. unfold trace, call. simpl. intros [H | []]. now symmetry. Qed.

Lemma trace_lift {A} (c : Call Num Room) (r : Result A) :
  In c (trace (lift r)) -> False.
Proof. unfold trace, lift. simpl. tauto. Qed.

Lemma room_holes_loop_calls (detailed : bool) (rs : list Room)
    (msgs : list PyVal) (c : Call Num Room) :
  In c (trace (room_holes_loop detailed rs msgs)) ->
  exists room, In room rs /\ c = room_call detailed room.
Proof.
  revert msgs. induction rs as [| room rs IH]; intros msgs Hc;
    cbn [room_holes_loop] in Hc.
  - destruct Hc.
  - apply bind_trace in Hc. destruct Hc as [Hc | [msg [_ Hc]]].
    + apply trace_call in Hc. exists room. split; [now left | exact Hc].
    + apply bind_trace in Hc. destruct Hc as [Hc | [msgs' [_ Hc]]].
      * now apply trace_lift in Hc.
      * destruct (IH _ Hc) as [room' [Hin Heq]].
        exists room'. split; [now right | exact Heq].
Qed.

(** The only calls [check_no_room_holes] makes are the hole checks of
    the host's rooms. *)
Lemma check_no_room_holes_calls (h : Host) (raise_exception detailed : bool)
    (c : Call Num Room) :
  In c (trace (check_no_room_holes h raise_exception detailed)) ->
  exists room,
    In room (rooms h) /\
    c = room_call (effective raise_exception detailed) room.
Proof.
  unfold check_no_room_holes.
  change (if raise_exception then false else detailed)
    with (effective raise_exception detailed).
  intros Hc. apply bind_trace in Hc. destruct Hc as [Hc | [msgs [_ Hc]]].
  - now apply room_holes_loop_calls in Hc.
  - exfalso. destruct (effective raise_exception detailed).
    + destruct Hc.
    + apply bind_trace in Hc. destruct Hc as [Hc | [full_msg [_ Hc]]].
      * now apply trace_lift in Hc.
      * destruct (raise_exception && _); destruct Hc.
Qed.

(** With the raise flag, what [check_no_room_holes] returns is a string. *)
Lemma check_no_room_holes_raise_str (h : Host) (detailed : bool) (v : PyVal) :
  outcome (check_no_room_holes h true detailed) = Ok v ->
  exists s, v = PStr s.
Proof.
  unfold check_no_room_holes. intros Hv.
  apply bind_returns in Hv. destruct Hv as [msgs [_ Hv]].
  apply bind_returns in Hv. destruct Hv as [full_msg [_ Hv]].
  cbn [andb] in Hv.
  destruct (negb (Nat.eqb (List.length msgs) 0)); [discriminate |].
  injection Hv as <-. now exists full_msg.
Qed.

(** One step of [check_for_extension] that returned. *)
Ltac returned H :=
  let m := fresh "m" in
  apply bind_returns in H; destruct H as [m [_ H]].

Lemma check_for_extension_raise_str (h : Host) (detailed : bool) (v : PyVal) :
  outcome (check_for_extension h true detailed) = Ok v ->
  exists s, v = PStr s.
Proof.
  unfold check_for_extension. intros Hv.
  do 15 returned Hv.
  unfold outcome, lift in Hv. cbn [snd] in Hv.
  now apply final_report_raise_str in Hv.
Qed.

(** One step of [check_for_extension] that may have made the call [c]:
    the call of the step is another one, or the very one looked for. *)
Ltac made H :=
  let m := fresh "m" in
  apply bind_trace in H; destruct H as [H | [m [? H]]];
  [ first [ now apply trace_lift in H
          | apply trace_call in H; try discriminate H ] | ].

(** Every call of the degenerate-room check carries the tolerance that
    [parse_distance_string] returned. *)
Lemma degenerate_rooms_call (h : Host) (raise_exception detailed : bool)
    (tol : Num) (r d : bool) :
  In (CallDegenerateRooms tol r d)
     (trace (check_for_extension h raise_exception detailed)) ->
  parse_distance_string "0.03ft" (units h) = Ok tol.
Proof.
  unfold check_for_extension. intros Hc.
  apply bind_trace in Hc. destruct Hc as [Hc | [e_tol [He Hc]]];
    [now apply trace_lift in Hc |].
  unfold outcome, lift in He. cbn [snd] in He. rewrite He.
  made Hc. made Hc. made Hc.
  made Hc; [injection Hc as -> _ _; reflexivity |].
  do 9 made Hc.
  apply bind_trace in Hc. destruct Hc as [Hc | [m14 [_ Hc]]].
  - apply bind_trace in Hc. destruct Hc as [Hc | [u [_ Hc]]].
    + apply trace_call in Hc. discriminate Hc.
    + apply check_no_room_holes_calls in Hc.
      destruct Hc as [room [_ Hc]]. discriminate Hc.
  - now apply trace_lift in Hc.
Qed.

End AnyHost.

(** ** The claims on the flags, the tolerance and the hole check *)

Section Flags.
Context {Num Room Other : Type}.
Context {host_checks : ModelChecks Num Room Other}.
Context {room_doe2 : RoomDoe2 Room}.
Context {honeybee_units : Units Num}.

Local Abbreviation Host := (Model Num Room Other).

(** C3.  For every host and every [detailed] the caller passes, each of
    [check_for_extension], [check_generic], [check_all] and
    [check_no_room_holes] called with [raise_exception=True] does what it
    does with [detailed=False], and whatever it returns (when it does not
    raise) is a string, never a list. *)
Theorem detailed_forced_off_when_raising (h : Host) (detailed : bool) :
  (check_for_extension h true detailed = check_for_extension h true false /\
   forall v, outcome (check_for_extension h true detailed) = Ok v ->
             exists s, v = PStr s) /\
  (check_generic h true detailed = check_generic h true false /\
   forall v, outcome (check_generic h true detailed) = Ok v ->
             exists s, v = PStr s) /\
  (check_all h true detailed = check_all h true false /\
   forall v, outcome (check_all h true detailed) = Ok v ->
             exists s, v = PStr s) /\
  (check_no_room_holes h true detailed = check_no_room_holes h true false /\
   forall v, outcome (check_no_room_holes h true detailed) = Ok v ->
             exists s, v = PStr s).
Proof.
  repeat split; try reflexivity; intros v Hv.
  - now apply check_for_extension_raise_str in Hv.
  - unfold check_generic, outcome, lift in Hv. cbn [snd] in Hv.
    now apply final_report_raise_str in Hv.
  - unfold check_all, outcome, lift in Hv. cbn [snd] in Hv.
    now apply final_report_raise_str in Hv.
  - now apply check_no_room_holes_raise_str in Hv.
Qed.

(** C6.  The tolerance [check_for_extension] passes to the
    degenerate-room check is what
    [parse_distance_string('0.03ft', host.units)] returned.  For every
    host, whatever the collaborators do: a call of that check carries
    that value; and when the three checks before it return, an exception
    the check raises at that value is what [check_for_extension] raises,
    after those four calls.  On a host whose collaborators honour their
    contract the call is made, and when every other check is silent what
    [check_for_extension] returns without raising is exactly what the
    degenerate-room check returns at that value. *)
Theorem degenerate_rooms_tolerance (h : Host)
    (raise_exception detailed : bool) :
  (forall tol r d,
     In (CallDegenerateRooms tol r d)
        (trace (check_for_extension h raise_exception detailed)) ->
     parse_distance_string "0.03ft" (units h) = Ok tol) /\
  (host_contract h ->
   exists e_tol,
     parse_distance_string "0.03ft" (units h) = Ok e_tol /\
     In (CallDegenerateRooms e_tol false
           (effective raise_exception detailed))
        (trace (check_for_extension h raise_exception detailed))) /\
  (forall e_tol e m1 m2 m3,
     parse_distance_string "0.03ft" (units h) = Ok e_tol ->
     check_all_duplicate_identifiers h false
       (effective raise_exception detailed) = Ok m1 ->
     check_planar h (tolerance h) false
       (effective raise_exception detailed) = Ok m2 ->
     check_self_intersecting h (tolerance h) false
       (effective raise_exception detailed) = Ok m3 ->
     check_degenerate_rooms h e_tol false
       (effective raise_exception detailed) = Raise e ->
     check_for_extension h raise_exception detailed =
     (firstn 4 (battery_calls h e_tol (effective raise_exception detailed)),
      Raise e)) /\
  (forall e_tol,
     host_contract h ->
     parse_distance_string "0.03ft" (units h) = Ok e_tol ->
     others_silent h e_tol detailed ->
     outcome (check_for_extension h false detailed) =
     check_degenerate_rooms h e_tol false detailed).
Proof.
  split; [| split; [| split]].
  - intros tol r d. apply degenerate_rooms_call.
  - intros Hc. destruct (units_parse Hc) as [e_tol He].
    exists e_tol. split; [exact He |].
    rewrite (check_for_extension_trace raise_exception detailed Hc He).
    apply in_or_app. left. unfold battery_calls. cbn [In]. tauto.
  - intros e_tol e m1 m2 m3 He H1 H2 H3 H4. unfold check_for_extension.
    change (if raise_exception then false else detailed)
      with (effective raise_exception detailed).
    rewrite He, bind_lift_ok. cbv zeta.
    rewrite H1, bind_call_prepend, H2, bind_call_prepend.
    rewrite H3, bind_call_prepend, H4.
    reflexivity.
  - intros e_tol Hc He [Hhost Hrooms].
    rewrite (check_for_extension_outcome false detailed Hc He).
    cbn [effective andb].
    pose proof (degenerate_rooms_ok Hc e_tol detailed) as Hdeg.
    unfold honours in Hdeg. rewrite Hdeg. clear Hdeg.
    unfold all_results, merged_text.
    rewrite merged_records_app, merged_texts_app.
    assert (Hquiet : forall d, others_silent h e_tol d ->
              merged_records (room_reports h d) = [] /\
              merged_texts (room_reports h d) = []).
    { intros d [_ Hr]. split.
      - apply merged_records_silent. intros r Hin. now apply Hr.
      - apply merged_texts_silent. intros r Hin. now apply Hr. }
    assert (Hat : forall i r,
              nth_error (host_battery h e_tol detailed) i = Some r ->
              i <> 3 -> text_of r = "" /\ records_of r = [])
      by exact Hhost.
    destruct (Hquiet detailed (conj Hhost Hrooms)) as [Hrecs Htexts].
    unfold host_battery in Hat.
    pose proof (Hat 0 _ eq_refl ltac:(discriminate)) as [T0 R0].
    pose proof (Hat 1 _ eq_refl ltac:(discriminate)) as [T1 R1].
    pose proof (Hat 2 _ eq_refl ltac:(discriminate)) as [T2 R2].
    pose proof (Hat 4 _ eq_refl ltac:(discriminate)) as [T4 R4].
    pose proof (Hat 5 _ eq_refl ltac:(discriminate)) as [T5 R5].
    pose proof (Hat 6 _ eq_refl ltac:(discriminate)) as [T6 R6].
    pose proof (Hat 7 _ eq_refl ltac:(discriminate)) as [T7 R7].
    pose proof (Hat 8 _ eq_refl ltac:(discriminate)) as [T8 R8].
    pose proof (Hat 9 _ eq_refl ltac:(discriminate)) as [T9 R9].
    pose proof (Hat 10 _ eq_refl ltac:(discriminate)) as [T10 R10].
    pose proof (Hat 11 _ eq_refl ltac:(discriminate)) as [T11 R11].
    pose proof (Hat 12 _ eq_refl ltac:(discriminate)) as [T12 R12].
    destruct detailed.
    + rewrite Hrecs. unfold merged_records, host_battery.
      cbn [map List.concat].
      rewrite R0, R1, R2, R4, R5, R6, R7, R8, R9, R10, R11, R12.
      cbn [app]. now rewrite !app_nil_r.
    + rewrite Htexts. unfold merged_texts, host_battery.
      cbn [map filter].
      rewrite T0, T1, T2, T4, T5, T6, T7, T8, T9, T10, T11, T12.
      cbn [nonempty String.eqb negb filter app].
      unfold report_of.
      destruct (text_of (check_degenerate_rooms h e_tol false false))
        as [| c s']; reflexivity.
Qed.

(** A room reports an issue exactly when the merged messages of the
    rooms are not empty. *)
Lemma room_issue_iff (h : Host) :
  (exists room, In room (rooms h) /\
                reports_issue (check_no_holes room false false) = true) <->
  negb (Nat.eqb (List.length (merged_texts (room_reports h false))) 0) = true.
Proof.
  split.
  - intros [room [Hin Hissue]]. apply merged_texts_issue.
    exists (check_no_holes room false false). split; [| exact Hissue].
    unfold room_reports, room_results. apply in_map_iff.
    exists room. now split.
  - intros Hlen.
    destruct (merged_texts (room_reports h false)) as [| s ss] eqn:Hm;
      [discriminate |].
    assert (Hs : In s (merged_texts (room_reports h false)))
      by (rewrite Hm; now left).
    unfold merged_texts in Hs. apply filter_In in Hs.
    destruct Hs as [Hs Hne]. apply in_map_iff in Hs.
    destruct Hs as [r [<- Hr]].
    unfold room_reports, room_results in Hr. apply in_map_iff in Hr.
    destruct Hr as [room [<- Hroom]]. now exists room.
Qed.

(** C8.  On a host whose rooms honour their contract,
    [check_no_room_holes] calls [check_no_holes] of every room, once and
    in room order, with the raise flag false and with [detailed] as it
    stands after the first line; the report merges the rooms' results in
    that order (all records, or the non-empty messages joined by
    newlines); and it raises, the ValueError with the joined message,
    exactly when [raise_exception] is true and a room reported an
    issue. *)
Theorem check_no_room_holes_spec (h : Host)
    (raise_exception detailed : bool) :
  rooms_contract h ->
  trace (check_no_room_holes h raise_exception detailed) =
    map (fun room =>
           CallRoomNoHoles room false (effective raise_exception detailed))
        (rooms h) /\
  ((raise_exception = true /\
    exists room, In room (rooms h) /\
                 reports_issue (check_no_holes room false false) = true) ->
   outcome (check_no_room_holes h raise_exception detailed) =
   Raise (ValueError (merged_text (room_reports h false)))) /\
  (~ (raise_exception = true /\
      exists room, In room (rooms h) /\
                   reports_issue (check_no_holes room false false) = true) ->
   outcome (check_no_room_holes h raise_exception detailed) =
   Ok (if effective raise_exception detailed
       then PList (merged_records (room_reports h true))
       else PStr (merged_text (room_reports h false)))).
Proof.
  intros Hc. rewrite (check_no_room_holes_run raise_exception detailed Hc).
  unfold trace, outcome. cbn [fst snd]. split; [reflexivity |].
  rewrite room_issue_iff. split.
  - intros [-> Hissue]. cbn [effective andb]. now rewrite Hissue.
  - intros Hnot. destruct (effective raise_exception detailed) eqn:Heff;
      [reflexivity |].
    destruct raise_exception; [| reflexivity]. cbn [andb].
    destruct (negb (Nat.eqb (List.length
                (merged_texts (room_reports h false))) 0));
      [exfalso; apply Hnot; now split | reflexivity].
Qed.

End Flags.

(** ** apply_properties_from_dict *)

Section Apply.
Context {Num Room Other : Type}.
Context {host_checks : ModelChecks Num Room Other}.
Context {room_doe2 : RoomDoe2 Room}.
Context {honeybee_units : Units Num}.

Local Abbreviation Host := (Model Num Room Other).








(** *** Where an exception of the method can come from *)

Lemma getitem_raise (v : PyVal) (k : string) (e : Exn) :
  getitem v k = Raise e -> e = KeyError k \/ e = TypeError.
Proof.
  destruct v as [| | | | | d]; cbn [getitem];
    try (intros [= <-]; now right).
  destruct (lookup k d); [discriminate | intros [= <-]; now left].
Qed.

Lemma py_iter_raise (v : PyVal) (e : Exn) :
  py_iter v = Raise e -> e = TypeError.
Proof. destruct v; cbn [py_iter]; now intros [= <-]. Qed.

Lemma room_doe2_dict_raise (room_dict : PyVal) (e : Exn) :
  room_doe2_dict room_dict = Raise e -> e = TypeError.
Proof.
  unfold room_doe2_dict.
  destruct (rbind (getitem room_dict "properties")
                  (fun p => getitem p "doe2")) as [v | e'] eqn:Hget;
    [discriminate |].
  assert (He' : (exists k, e' = KeyError k) \/ e' = TypeError).
  { unfold rbind in Hget.
    destruct (getitem room_dict "properties") as [p |] eqn:Hp.
    - apply getitem_raise in Hget. destruct Hget; [left; eauto | now right].
    - injection Hget as ->. apply getitem_raise in Hp.
      destruct Hp; [left; eauto | now right]. }
  destruct He' as [[k ->] | ->]; [discriminate | now intros [= <-]].
Qed.

Lemma room_doe2_dicts_raise (room_dicts : list PyVal) (e : Exn) :
  room_doe2_dicts room_dicts = Raise e -> e = TypeError.
Proof.
  induction room_dicts as [| rd rds IH]; cbn [room_doe2_dicts];
    [discriminate |].
  destruct (room_doe2_dict rd) as [d |] eqn:Hd; cbn [rbind].
  - destruct (room_doe2_dicts rds); cbn [rbind]; [discriminate |].
    intros [= <-]. now apply IH.
  - intros [= <-]. now apply room_doe2_dict_raise in Hd.
Qed.

Lemma apply_to_rooms_raise (rs : list Room) (r_dicts : list PyVal) (e : Exn) :
  outcome (snd (apply_to_rooms (Num := Num) rs r_dicts)) = Raise e ->
  exists room r_dict,
    In room rs /\ snd (room_apply_properties_from_dict room r_dict) = Raise e.
Proof.
  revert r_dicts. induction rs as [| room rs IH]; intros ds;
    [discriminate |].
  destruct ds as [| d ds]; [discriminate |].
  cbn [apply_to_rooms]. destruct (is_none d).
  - destruct (apply_to_rooms rs ds) as [rs'' t] eqn:Hrest. cbn [snd].
    intros He. destruct (IH ds) as [r [rd [Hr Hrd]]];
      [now rewrite Hrest |].
    exists r, rd. split; [now right | exact Hrd].
  - destruct (room_apply_properties_from_dict room d) as [room' res] eqn:Hroom.
    destruct res as [u | e'].
    + destruct (apply_to_rooms rs ds) as [rs'' t] eqn:Hrest.
      unfold outcome. cbn [snd]. intros He.
      destruct (IH ds) as [r [rd [Hr Hrd]]];
        [now rewrite Hrest |].
      exists r, rd. split; [now right | exact Hrd].
    + unfold outcome. cbn [snd]. intros [= <-].
      exists room, d. split; [now left | now rewrite Hroom].
Qed.

(** The guard on a model dictionary whose ['properties'] is a dict. *)
Lemma assert_doe2_dict (d p : list (string * PyVal)) :
  lookup "properties" d = Some (PDict p) ->
  assert_doe2 (PDict d) =
  match lookup "doe2" p with
  | Some _ => Ok tt
  | None => Raise (AssertionError no_doe2_message)
  end.
Proof.
  intros Hp. unfold assert_doe2. cbn [getitem]. rewrite Hp.
  cbn [rbind py_in]. now destruct (lookup "doe2" p).
Qed.

Lemma has_rooms_dict (d : list (string * PyVal)) :
  has_rooms (PDict d) =
  Ok (match lookup "rooms" d with
      | Some rv => negb (is_none rv)
      | None => false
      end).
Proof.
  unfold has_rooms. cbn [py_in rbind getitem].
  now destruct (lookup "rooms" d).
Qed.

(** *** The claims *)

(** C2.  For a model dictionary whose ['properties'] entry is a dict
    without the key ['doe2'], [apply_properties_from_dict] raises the
    AssertionError (the spec's SchemaError) with the message "Dictionary
    possesses no ModelDoe2Properties.", before any room is touched; the
    method has no flag to turn this off.  When the key is there the
    assertion passes: an exception the method then ends with is a
    TypeError on a malformed ['rooms'] entry or the exception a room's
    own application raised, never the assertion's.  (The assert statement
    is taken as executed, as it is when Python runs without -O.) *)
Theorem apply_properties_requires_doe2 (h : Host)
    (d p : list (string * PyVal)) :
  lookup "properties" d = Some (PDict p) ->
  (lookup "doe2" p = None ->
   apply_properties_from_dict h (PDict d) =
   (h, ([], Raise (AssertionError
                     "Dictionary possesses no ModelDoe2Properties.")))) /\
  (lookup "doe2" p <> None ->
   assert_doe2 (PDict d) = Ok tt /\
   forall e,
     outcome (snd (apply_properties_from_dict h (PDict d))) = Raise e ->
     e = TypeError \/
     exists room r_dict,
       In room (rooms h) /\
       snd (room_apply_properties_from_dict room r_dict) = Raise e).
Proof.
  intros Hp. split.
  - intros Hdoe2. unfold apply_properties_from_dict.
    now rewrite (assert_doe2_dict _ Hp), Hdoe2.
  - intros Hdoe2.
    assert (Ha : assert_doe2 (PDict d) = Ok tt).
    { rewrite (assert_doe2_dict _ Hp).
      now destruct (lookup "doe2" p). }
    split; [exact Ha |].
    intros e. unfold apply_properties_from_dict.
    rewrite Ha, has_rooms_dict.
    destruct (lookup "rooms" d) as [rv |] eqn:Hrooms; [| discriminate].
    destruct (negb (is_none rv)); [| discriminate].
    cbn [getitem]. rewrite Hrooms. cbn [rbind].
    destruct (py_iter rv) as [items | e'] eqn:Hiter; cbn [rbind].
    + destruct (room_doe2_dicts items) as [r_dicts | e'] eqn:Hdicts.
      * destruct (apply_to_rooms (rooms h) r_dicts) as [rs' t] eqn:Hloop.
        cbn [snd]. intros He. right.
        apply (apply_to_rooms_raise (rooms h) r_dicts).
        now rewrite Hloop.
      * unfold outcome, lift. cbn [snd]. intros [= <-]. left.
        now apply room_doe2_dicts_raise in Hdicts.
    + unfold outcome, lift. cbn [snd]. intros [= <-]. left.
      now apply py_iter_raise in Hiter.
Qed.


(** C10.  For a model dictionary with the ['doe2'] marker that has no
    ['rooms'] key, or whose ['rooms'] is None,
    [apply_properties_from_dict] returns normally, makes no call on any
    room and leaves the host, its rooms included, as it was. *)
Theorem apply_properties_without_rooms (h : Host)
    (d p : list (string * PyVal)) :
  lookup "properties" d = Some (PDict p) ->
  lookup "doe2" p <> None ->
  lookup "rooms" d = None \/ lookup "rooms" d = Some PNone ->
  apply_properties_from_dict h (PDict d) = (h, ([], Ok tt)).
Proof.
  intros Hp Hdoe2 Hrooms. unfold apply_properties_from_dict.
  rewrite (assert_doe2_dict _ Hp).
  destruct (lookup "doe2" p) as [v |]; [| congruence].
  rewrite has_rooms_dict. now destruct Hrooms as [-> | ->].
Qed.

End Apply.

(** ** The claims on the demo host *)

Lemma demo_report_honours (detailed : bool) (msg : string) :
  honours detailed (demo_report false detailed msg).
Proof.
  unfold honours, demo_report.
  destruct (String.eqb msg ""); now destruct detailed.
Qed.

Lemma demo_contract (h : Model Q DemoRoom (list string)) :
  units h = "Meters" -> host_contract h.
Proof.
  intros Hunits.
  constructor; try (intros; apply demo_report_honours).
  - exists (9144 # 1000000)%Q. now rewrite Hunits.
  - intros room detailed _. apply demo_report_honours.
Qed.

Lemma demo_host_contract : host_contract demo_host.
Proof. now apply demo_contract. Qed.

Lemma clean_host_contract : host_contract clean_host.
Proof. now apply demo_contract. Qed.


Lemma demo_units_metres (e_tol : Q) :
  parse_distance_string "0.03ft" (units demo_host) = Ok e_tol ->
  e_tol = (9144 # 1000000)%Q.
Proof. now intros [= <-]. Qed.

(** C1 on the demo host: one non-planar face and two rooms with holes. *)
Lemma check_for_extension_raises_on_demo :
  outcome (check_for_extension demo_host true true) =
    Raise (ValueError (String.concat newline demo_messages)) /\
  exists v, outcome (check_for_extension demo_host false true) = Ok v.
Proof.
  destruct (check_for_extension_raises_on_issue true demo_host_contract)
    as [e_tol [He [Hraise Hreturns]]].
  split; [| exact Hreturns].
  rewrite Hraise.
  - apply demo_units_metres in He. subst e_tol. reflexivity.
  - exists (check_planar demo_host (tolerance demo_host) false false).
    split; [right; left; reflexivity | reflexivity].
Defined.

(** C4 on the two hosts: the records of the demo host, and the empty
    reports of the clean one. *)
Lemma check_for_extension_report_demo :
  outcome (check_for_extension demo_host false true) =
    Ok (PList (map (fun m => PDict [("message", PStr m)]) demo_messages)) /\
  outcome (check_for_extension clean_host false false) = Ok (PStr "") /\
  outcome (check_for_extension clean_host false true) = Ok (PList []).
Proof.
  split.
  - destruct (check_for_extension_report false true demo_host_contract)
      as [e_tol [He [Hrecords _]]].
    rewrite (Hrecords eq_refl).
    apply demo_units_metres in He. subst e_tol. reflexivity.
  - destruct (check_for_extension_report false false clean_host_contract)
      as [e_tol [_ [_ [_ [_ Hnothing]]]]].
    apply Hnothing. intros r detailed Hin.
    destruct detailed; cbn in Hin;
      repeat (destruct Hin as [<- | Hin]; [split; reflexivity |]);
      destruct Hin.
Defined.

(** C5 on the demo host: the fourteen calls, then the three rooms. *)
Lemma check_for_extension_call_order_demo :
  trace (check_for_extension demo_host true true) =
    battery_calls demo_host (9144 # 1000000)%Q false
      ++ map (fun room => CallRoomNoHoles room false false) demo_rooms /\
  outcome (check_for_extension demo_host true true) =
    Raise (ValueError (String.concat newline demo_messages)).
Proof.
  destruct (check_for_extension_call_order true true demo_host_contract)
    as [e_tol [He [Hcalls [_ [_ [_ [_ Hreport]]]]]]].
  apply demo_units_metres in He. subst e_tol.
  split; [rewrite Hcalls | rewrite Hreport]; reflexivity.
Defined.

(** C3 on the clean host: asked to raise and for details, the four
    checks return the empty string. *)
Lemma detailed_forced_off_on_clean_host :
  (exists s, PStr "" = PStr s) /\
  check_no_room_holes clean_host true true =
  check_no_room_holes clean_host true false.
Proof.
  destruct (detailed_forced_off_when_raising clean_host true)
    as [[_ Hstr] [_ [_ [Hsame _]]]].
  split; [| exact Hsame].
  apply Hstr. reflexivity.
Defined.

Lemma edge_host_contract (edge : Q) : host_contract (edge_host edge).
Proof.
  constructor; try (intros; apply demo_report_honours).
  - now exists (9144 # 1000000)%Q.
  - intros room detailed _. apply demo_report_honours.
Qed.

Lemma edge_host_others_silent (edge : Q) (detailed : bool) :
  others_silent (edge_host edge) (9144 # 1000000)%Q detailed.
Proof.
  split.
  - intros i r Hnth Hi. unfold host_battery in Hnth.
    do 3 (destruct i as [| i];
          [ cbn [nth_error] in Hnth; injection Hnth as <-;
            destruct detailed; split; reflexivity | ]).
    destruct i as [| i]; [now destruct Hi |].
    do 9 (destruct i as [| i];
          [ cbn [nth_error] in Hnth; injection Hnth as <-;
            destruct detailed; split; reflexivity | ]).
    cbn [nth_error] in Hnth. now destruct i.
  - intros r [<- | []]. destruct detailed; split; reflexivity.
Qed.

(** C6 on a host in metres with tolerance 0.01 whose shortest edge is
    0.0095 long: 0.03 ft is 0.009144 m, so the degenerate-room check at
    the converted tolerance finds nothing, and neither does
    [check_for_extension], while at the model tolerance the same check
    would report the room. *)
Lemma degenerate_rooms_tolerance_demo :
  outcome (check_for_extension (edge_host (95 # 10000)%Q) false false) =
    Ok (PStr "") /\
  check_degenerate_rooms (edge_host (95 # 10000)%Q)
    (tolerance (edge_host (95 # 10000)%Q)) false false =
    Ok (PStr "Room A is degenerate").
Proof.
  split; [| reflexivity].
  rewrite (proj2 (proj2 (proj2
             (degenerate_rooms_tolerance (edge_host (95 # 10000)%Q)
                false false)))
             (9144 # 1000000)%Q
             (edge_host_contract (95 # 10000)%Q) eq_refl
             (edge_host_others_silent (95 # 10000)%Q false)).
  reflexivity.
Defined.

(** C8 on the demo host: the three rooms are visited, two have holes. *)
Lemma check_no_room_holes_demo :
  trace (check_no_room_holes demo_host true true) =
    map (fun room => CallRoomNoHoles room false false) demo_rooms /\
  outcome (check_no_room_holes demo_host true true) =
    Raise (ValueError (String.concat newline
                         ["Room B has holes"; "Room C has holes"])).
Proof.
  destruct (check_no_room_holes_spec (h := demo_host) true true
              (room_checks_ok demo_host_contract))
    as [Hcalls [Hraises _]].
  split; [exact Hcalls |].
  rewrite Hraises; [reflexivity |].
  split; [reflexivity |].
  exists (mkDemoRoom "B" 1 PNone). split; [right; left |]; reflexivity.
Defined.

(** C2 on a dictionary with energy properties only. *)
Lemma apply_properties_requires_doe2_demo :
  apply_properties_from_dict demo_host
    (PDict [("properties", PDict [("energy", PNone)])]) =
  (demo_host,
   ([], Raise (AssertionError "Dictionary possesses no ModelDoe2Properties."))).
Proof.
  apply (proj1 (apply_properties_requires_doe2 demo_host
                  [("properties", PDict [("energy", PNone)])]
                  (p := [("energy", PNone)]) eq_refl)).
  reflexivity.
Defined.


(** C10 on a dictionary whose rooms are None. *)
Lemma apply_properties_without_rooms_demo :
  apply_properties_from_dict demo_host (demo_data PNone) =
  (demo_host, ([], Ok tt)).
Proof.
  apply (apply_properties_without_rooms demo_host
           (demo_entries PNone) (p := demo_properties) eq_refl).
  - discriminate.
  - right. reflexivity.
Defined.

(** ** Beyond the contract: what the aggregator does on any host *)

Section StepFacts.
Context {Num Room : Type}.

Local Abbreviation Step := (Call Num Room * Result PyVal)%type.

Lemma bind_call_raise {A B} (c : Call Num Room) (e : Exn)
    (f : A -> Traced (Call Num Room) B) :
  bind (call c (Raise e)) f = ([c], Raise e).
Proof. reflexivity. Qed.

(** The steps run up to the first one that raises. *)
Lemma run_all_raises (pre post : list Step) (c : Call Num Room) (e : Exn) :
  Forall returned_step pre ->
  run_all (pre ++ (c, Raise e) :: post) = (map fst pre ++ [c], Raise e).
Proof.
  induction pre as [| [c' r] pre IH]; intros Hpre; cbn [app run_all map].
  - apply bind_call_raise.
  - inversion Hpre as [| ? ? [m Hm] Hrest]; subst. cbn [snd] in Hm. subst r.
    rewrite bind_call_prepend, (IH Hrest). reflexivity.
Qed.

(** Steps that all return are all run. *)
Lemma run_all_returns (steps : list Step) :
  Forall returned_step steps ->
  exists ms,
    map snd steps = map Ok ms /\
    run_all steps = (map fst steps, Ok ms).
Proof.
  induction steps as [| [c r] steps IH]; intros Hsteps.
  - now exists [].
  - inversion Hsteps as [| ? ? [m Hm] Hrest]; subst. cbn [snd] in Hm. subst r.
    destruct (IH Hrest) as [ms [Hms Hrun]].
    exists (m :: ms). cbn [map fst snd run_all]. split; [now rewrite Hms |].
    rewrite bind_call_prepend, Hrun, bind_ok.
    unfold prepend, ret, trace, outcome. cbn [fst snd].
    now rewrite app_nil_r.
Qed.

(** Either every step returns, or there is a first one that raises. *)
Lemma first_raise (steps : list Step) :
  Forall returned_step steps \/
  exists pre c e post,
    steps = pre ++ (c, Raise e) :: post /\ Forall returned_step pre.
Proof.
  induction steps as [| [c r] steps IH]; [now left |].
  destruct r as [m | e].
  - destruct IH as [Hall | [pre [c' [e [post [-> Hpre]]]]]].
    + left. constructor; [now exists m | exact Hall].
    + right. exists ((c, Ok m) :: pre), c', e, post.
      split; [reflexivity |]. constructor; [now exists m | exact Hpre].
  - right. exists [], c, e, steps. split; [reflexivity | constructor].
Qed.

End StepFacts.

Section AnyHostBattery.
Context {Num Room Other : Type}.
Context {host_checks : ModelChecks Num Room Other}.
Context {room_doe2 : RoomDoe2 Room}.
Context {honeybee_units : Units Num}.

Local Abbreviation Host := (Model Num Room Other).

(** The result of one host check, returned or raised. *)
Ltac host_check r := destruct r; [| reflexivity].

(** [check_for_extension] once the tolerance is parsed: the thirteen
    steps on the host, the hole check, the report. *)
Lemma check_for_extension_steps (h : Host) (raise_exception detailed : bool)
    (e_tol : Num) :
  parse_distance_string "0.03ft" (units h) = Ok e_tol ->
  check_for_extension h raise_exception detailed =
  bind (run_all (host_steps h e_tol (effective raise_exception detailed)))
    (fun ms =>
  bind (bind (call (CallNoRoomHoles false
                      (effective raise_exception detailed)) (Ok tt))
             (fun _ => check_no_room_holes h false
                         (effective raise_exception detailed)))
    (fun m14 =>
  lift (final_report raise_exception (effective raise_exception detailed)
          (ms ++ [m14])))).
Proof.
  intros Hparse.
  unfold check_for_extension, host_steps, battery_calls, host_battery.
  change (if raise_exception then false else detailed)
    with (effective raise_exception detailed).
  set (d := effective raise_exception detailed).
  rewrite Hparse, bind_lift_ok. cbn [removelast combine run_all].
  host_check (check_all_duplicate_identifiers h false d).
  host_check (check_planar h (tolerance h) false d).
  host_check (check_self_intersecting h (tolerance h) false d).
  host_check (check_degenerate_rooms h e_tol false d).
  host_check (check_sub_faces_valid h (tolerance h) (angle_tolerance h)
                false d).
  host_check (check_sub_faces_overlapping h (tolerance h) false d).
  host_check (check_rooms_solid h (tolerance h) (angle_tolerance h) false d).
  host_check (check_upside_down_faces h (angle_tolerance h) false d).
  host_check (check_room_volume_collisions h (tolerance h) false d).
  host_check (check_missing_adjacencies h false d).
  host_check (check_matching_adjacent_areas h (tolerance h) false d).
  host_check (check_all_air_boundaries_adjacent h false d).
  host_check (check_interior_constructions_reversed h false d).
  destruct (check_no_room_holes h false d) as [l [m14 | e14]]; reflexivity.
Qed.

End AnyHostBattery.

Lemma final_report_raise_empty (msgs : list PyVal) (v : PyVal) :
  final_report true false msgs = Ok v -> v = PStr "".
Proof.
  unfold final_report.
  destruct (filter truthy msgs) as [| msg full_msgs]; cbn.
  - now intros [= <-].
  - unfold py_join. destruct (strings_of (msg :: full_msgs)); cbn;
      discriminate.
Qed.

Section AnyHostFacts.
Context {Num Room Other : Type}.
Context {host_checks : ModelChecks Num Room Other}.
Context {room_doe2 : RoomDoe2 Room}.
Context {honeybee_units : Units Num}.

Local Abbreviation Host := (Model Num Room Other).

(** X1.  [check_generic] and [check_all] run no check at all: for every host
    and every pair of flags they call no collaborator, never raise, and
    return the empty report, the empty list when asked for details
    without raising and the empty string otherwise. *)
Theorem empty_batteries_report_nothing (h : Host)
    (raise_exception detailed : bool) :
  check_generic h raise_exception detailed =
    ([], Ok (if effective raise_exception detailed
             then PList [] else PStr "")) /\
  check_all h raise_exception detailed =
    ([], Ok (if effective raise_exception detailed
             then PList [] else PStr "")).
Proof. destruct raise_exception, detailed; split; reflexivity. Qed.

(** X2.  Asked to raise, [check_for_extension] and [check_no_room_holes]
    never return a finding: on every host, whatever the collaborators
    return or raise, what they return is the empty string. *)
Theorem raising_checks_return_only_empty (h : Host) (detailed : bool)
    (v : PyVal) :
  (outcome (check_for_extension h true detailed) = Ok v -> v = PStr "") /\
  (outcome (check_no_room_holes h true detailed) = Ok v -> v = PStr "").
Proof.
  split; intros Hv.
  - unfold check_for_extension in Hv.
    do 15 (apply bind_returns in Hv; destruct Hv as [? [_ Hv]]).
    unfold outcome, lift in Hv. cbn [snd] in Hv.
    now apply final_report_raise_empty in Hv.
  - unfold check_no_room_holes in Hv.
    apply bind_returns in Hv. destruct Hv as [msgs [_ Hv]].
    apply bind_returns in Hv. destruct Hv as [full_msg [Hjoin Hv]].
    cbn [andb] in Hv.
    destruct msgs as [| msg msgs]; [| discriminate].
    unfold outcome, lift in Hjoin. cbn in Hjoin.
    injection Hjoin as <-. now injection Hv as <-.
Qed.

(** X3.  When [parse_distance_string] raises on the host's units,
    [check_for_extension] raises the same exception before any check is
    called, whatever the two flags are. *)
Theorem unparsed_units_stop_the_battery (h : Host)
    (raise_exception detailed : bool) (e : Exn) :
  parse_distance_string "0.03ft" (units h) = Raise e ->
  check_for_extension h raise_exception detailed = ([], Raise e).
Proof. intros Hparse. unfold check_for_extension. now rewrite Hparse. Qed.

(** X4.  The first host check that raises ends [check_for_extension]: the
    exception goes to the caller as it is, also when [raise_exception] is
    false, and the calls made are those up to that check, none after. *)
Theorem host_exception_propagates (h : Host)
    (raise_exception detailed : bool) (e_tol : Num)
    (pre post : list (Call Num Room * Result PyVal))
    (c : Call Num Room) (e : Exn) :
  parse_distance_string "0.03ft" (units h) = Ok e_tol ->
  host_steps h e_tol (effective raise_exception detailed) =
    pre ++ (c, Raise e) :: post ->
  Forall returned_step pre ->
  check_for_extension h raise_exception detailed =
    (map fst pre ++ [c], Raise e).
Proof.
  intros Hparse Hsteps Hpre.
  rewrite (check_for_extension_steps h raise_exception detailed Hparse),
    Hsteps.
  now rewrite (run_all_raises post c e Hpre).
Qed.

End AnyHostFacts.

Lemma empty_batteries_on_demo :
  check_all demo_host false true = ([], Ok (PList [])).
Proof.
  exact (proj2 (empty_batteries_report_nothing demo_host false true)).
Defined.

Lemma raising_checks_on_clean_host :
  PStr "" = PStr "".
Proof.
  apply (proj1 (raising_checks_return_only_empty clean_host true (PStr ""))).
  reflexivity.
Defined.

Lemma unparsed_units_on_odd_host :
  check_for_extension (odd_host "Cubits" [quiet_room "A"] None) false true =
  ([], Raise (ValueError "unknown units")).
Proof.
  apply unparsed_units_stop_the_battery. reflexivity.
Defined.

Lemma host_exception_on_odd_host :
  check_for_extension
    (odd_host "Meters" [quiet_room "A"] (Some (OtherError "RuntimeError")))
    false true =
  ([ CallAllDuplicateIdentifiers false true;
     CallPlanar (1 # 100)%Q false true;
     CallSelfIntersecting (1 # 100)%Q false true ],
   Raise (OtherError "RuntimeError")).
Proof.
  apply host_exception_propagates
    with (e_tol := (9144 # 1000000)%Q)
         (pre := [ (CallAllDuplicateIdentifiers false true, Ok (PList []));
                   (CallPlanar (1 # 100)%Q false true, Ok (PList [])) ])
         (post := skipn 3 (host_steps
                    (odd_host "Meters" [quiet_room "A"]
                       (Some (OtherError "RuntimeError")))
                    (9144 # 1000000)%Q true)).
  - reflexivity.
  - reflexivity.
  - repeat constructor; eexists; reflexivity.
Defined.

(** ** The hole check on rooms that misbehave *)

Section AnyRooms.
Context {Num Room Other : Type}.
Context {host_checks : ModelChecks Num Room Other}.
Context {room_doe2 : RoomDoe2 Room}.
Context {honeybee_units : Units Num}.

Local Abbreviation Host := (Model Num Room Other).

Lemma room_holes_loop_raises (detailed : bool) (rs1 rs2 : list Room)
    (room : Room) (e : Exn) (msgs : list PyVal) :
  (forall r, In r rs1 -> honours detailed (check_no_holes r false detailed)) ->
  check_no_holes room false detailed = Raise e ->
  room_holes_loop (Num := Num) detailed (rs1 ++ room :: rs2) msgs =
  (map (room_call detailed) rs1 ++ [room_call detailed room], Raise e).
Proof.
  intros Hrs1 Hroom. revert msgs.
  induction rs1 as [| r rs1 IH]; intros msgs; cbn [app room_holes_loop map].
  - now rewrite Hroom.
  - pose proof (Hrs1 r (or_introl eq_refl)) as Hr. unfold honours in Hr.
    rewrite Hr, bind_call_prepend.
    destruct detailed; cbn [report_of py_iter rbind].
    + rewrite bind_lift_ok, IH by (intros r' Hr'; apply Hrs1; now right).
      reflexivity.
    + destruct (ne_empty_str (PStr (text_of (check_no_holes r false false))));
        rewrite bind_lift_ok, IH by (intros r' Hr'; apply Hrs1; now right);
        reflexivity.
Qed.

(** In string mode, rooms that all return are all visited, and every
    answer that is not the empty string is kept, string or not. *)
Lemma room_holes_loop_answers (rs : list Room) (answers msgs : list PyVal) :
  room_results false rs = map Ok answers ->
  room_holes_loop (Num := Num) false rs msgs =
  (map (room_call false) rs, Ok (msgs ++ filter ne_empty_str answers)).
Proof.
  revert answers msgs.
  induction rs as [| r rs IH]; intros answers msgs Hanswers;
    destruct answers as [| v answers]; try discriminate.
  - unfold ret. cbn. now rewrite app_nil_r.
  - cbn [room_results map] in Hanswers. injection Hanswers as Hr Hrest.
    cbn [room_holes_loop map filter]. rewrite Hr, bind_call_prepend.
    destruct (ne_empty_str v); rewrite bind_lift_ok, (IH _ _ Hrest);
      unfold prepend; cbn [fst snd]; [| reflexivity].
    now rewrite <- app_assoc.
Qed.

Lemma strings_of_not_all (l : list PyVal) (v : PyVal) :
  In v l -> (forall s, v <> PStr s) -> strings_of l = None.
Proof.
  induction l as [| x l IH]; intros Hin Hv; [destruct Hin |].
  destruct Hin as [-> | Hin].
  - destruct v; try reflexivity. now destruct (Hv s).
  - cbn [strings_of]. rewrite (IH Hin Hv). now destruct x.
Qed.

(** X7.  The hole check of a room that raises ends [check_no_room_holes]: the
    exception goes to the caller as it is, whatever the two flags are,
    and the rooms after that one are not visited. *)
Theorem room_exception_propagates (h : Host)
    (raise_exception detailed : bool)
    (rs1 rs2 : list Room) (room : Room) (e : Exn) :
  rooms h = rs1 ++ room :: rs2 ->
  (forall r, In r rs1 ->
     honours (effective raise_exception detailed)
       (check_no_holes r false (effective raise_exception detailed))) ->
  check_no_holes room false (effective raise_exception detailed) = Raise e ->
  check_no_room_holes h raise_exception detailed =
  (map (fun r => CallRoomNoHoles r false
                   (effective raise_exception detailed)) rs1
     ++ [CallRoomNoHoles room false (effective raise_exception detailed)],
   Raise e).
Proof.
  intros Hrooms Hrs1 Hroom. unfold check_no_room_holes.
  change (if raise_exception then false else detailed)
    with (effective raise_exception detailed).
  rewrite Hrooms, (room_holes_loop_raises rs1 rs2 room [] Hrs1 Hroom).
  reflexivity.
Qed.

(** X8.  In string mode a room's answer that is not a string (None, a list, a
    number) is kept among the messages, as only the empty string is
    dropped, and joining them fails: when every room returns and one
    returns such an answer, [check_no_room_holes] raises a TypeError after
    visiting all rooms, also when [raise_exception] is false. *)
Theorem non_string_answer_is_a_type_error (h : Host)
    (raise_exception : bool) (answers : list PyVal) (v : PyVal) :
  room_reports h false = map Ok answers ->
  In v answers -> (forall s, v <> PStr s) ->
  check_no_room_holes h raise_exception false =
  (map (fun r => CallRoomNoHoles r false false) (rooms h), Raise TypeError).
Proof.
  intros Hanswers Hin Hv. unfold check_no_room_holes.
  replace (if raise_exception then false else false) with false
    by now destruct raise_exception.
  unfold room_reports in Hanswers.
  rewrite (room_holes_loop_answers (rooms h) answers [] Hanswers), bind_ok.
  cbn [app]. unfold py_join.
  rewrite (strings_of_not_all (filter ne_empty_str answers) (v := v)); [| | exact Hv].
  - unfold trace, outcome, lift. cbn. now rewrite app_nil_r.
  - apply filter_In. split; [exact Hin |].
    destruct v; try reflexivity. now destruct (Hv s).
Qed.

End AnyRooms.

Lemma room_exception_on_odd_host :
  check_no_room_holes
    (odd_host "Meters" [quiet_room "A"; raising_room; quiet_room "B"] None)
    false false =
  ([ CallRoomNoHoles (quiet_room "A") false false;
     CallRoomNoHoles raising_room false false ],
   Raise (OtherError "RuntimeError")).
Proof.
  apply room_exception_propagates
    with (h := odd_host "Meters"
                 [quiet_room "A"; raising_room; quiet_room "B"] None)
         (raise_exception := false) (detailed := false)
         (rs1 := [quiet_room "A"]) (rs2 := [quiet_room "B"]).
  - reflexivity.
  - intros r [<- | []]. reflexivity.
  - reflexivity.
Defined.

Lemma none_answer_on_odd_host :
  check_no_room_holes
    (odd_host "Meters" [quiet_room "A"; none_room] None) false false =
  ([ CallRoomNoHoles (quiet_room "A") false false;
     CallRoomNoHoles none_room false false ],
   Raise TypeError).
Proof.
  apply non_string_answer_is_a_type_error
    with (h := odd_host "Meters" [quiet_room "A"; none_room] None)
         (answers := [PStr ""; PNone]) (v := PNone).
  - reflexivity.
  - right. left. reflexivity.
  - discriminate.
Defined.

(** ** The order of the calls and the origin of exceptions, on any host *)

Lemma flatten_raise (msgs : list PyVal) (e : Exn) :
  flatten msgs = Raise e -> e = TypeError.
Proof.
  induction msgs as [| msg msgs IH]; cbn [flatten]; [discriminate |].
  destruct (py_iter msg) eqn:Hiter; cbn [rbind].
  - destruct (flatten msgs); cbn [rbind]; [discriminate |].
    intros [= <-]. now apply IH.
  - intros [= <-]. now apply py_iter_raise in Hiter.
Qed.

Lemma final_report_no_raise_flag (detailed : bool) (msgs : list PyVal)
    (e : Exn) :
  final_report false detailed msgs = Raise e -> e = TypeError.
Proof.
  unfold final_report. destruct detailed.
  - destruct (flatten (filter truthy msgs)) eqn:Hflat; cbn [rbind];
      [discriminate |].
    intros [= <-]. now apply flatten_raise in Hflat.
  - unfold py_join. destruct (strings_of (filter truthy msgs)); cbn;
      [discriminate | now intros [= <-]].
Qed.

Section StepOrigins.
Context {Num Room : Type}.

Lemma run_all_raise_origin
    (steps : list (Call Num Room * Result PyVal)) (e : Exn) :
  outcome (run_all steps) = Raise e -> In (Raise e) (map snd steps).
Proof.
  destruct (first_raise steps) as [Hall | [pre [c [e' [post [-> Hpre]]]]]].
  - destruct (run_all_returns Hall) as [ms [_ Hrun]]. rewrite Hrun.
    discriminate.
  - rewrite (run_all_raises post c e' Hpre). unfold outcome. cbn [snd].
    intros [= <-]. rewrite map_app. apply in_or_app. right. now left.
Qed.

Lemma run_all_prefix (steps : list (Call Num Room * Result PyVal)) :
  exists n, trace (run_all steps) = firstn n (map fst steps).
Proof.
  destruct (first_raise steps) as [Hall | [pre [c [e [post [-> Hpre]]]]]].
  - destruct (run_all_returns Hall) as [ms [_ Hrun]]. rewrite Hrun.
    exists (List.length (map fst steps)). unfold trace. cbn [fst].
    now rewrite firstn_all.
  - rewrite (run_all_raises post c e Hpre). unfold trace. cbn [fst].
    exists (List.length (map fst pre) + 1).
    rewrite map_app, firstn_app_2. reflexivity.
Qed.

End StepOrigins.

Section AnyHostOrder.
Context {Num Room Other : Type}.
Context {host_checks : ModelChecks Num Room Other}.
Context {room_doe2 : RoomDoe2 Room}.
Context {honeybee_units : Units Num}.

Local Abbreviation Host := (Model Num Room Other).



Lemma room_holes_loop_origin (detailed : bool) (rs : list Room)
    (msgs : list PyVal) (e : Exn) :
  outcome (room_holes_loop (Num := Num) detailed rs msgs) = Raise e ->
  e = TypeError \/ In (Raise e) (room_results detailed rs).
Proof.
  revert msgs. induction rs as [| room rs IH]; intros msgs;
    cbn [room_holes_loop room_results map]; [discriminate |].
  destruct (check_no_holes room false detailed) as [msg | e'].
  - rewrite bind_call_prepend.
    match goal with
    | |- context [bind (lift ?r) _] => destruct r as [msgs' | e'] eqn:Hstep
    end.
    + rewrite bind_lift_ok. unfold prepend, outcome. cbn [snd].
      intros He. destruct (IH msgs' He) as [-> | Hin];
        [now left | right; now right].
    + unfold outcome. cbn. intros [= <-]. left.
      destruct detailed.
      * destruct (py_iter msg) eqn:Hiter; cbn [rbind] in Hstep;
          [discriminate |].
        injection Hstep as <-. now apply py_iter_raise in Hiter.
      * destruct (ne_empty_str msg); discriminate.
  - unfold outcome. cbn. intros [= <-]. right. now left.
Qed.

Lemma check_no_room_holes_origin (h : Host) (detailed : bool) (e : Exn) :
  outcome (check_no_room_holes h false detailed) = Raise e ->
  e = TypeError \/ In (Raise e) (room_reports h detailed).
Proof.
  unfold check_no_room_holes, room_reports.
  destruct (room_holes_loop detailed (rooms h) []) as [l [msgs | e']] eqn:Hloop.
  - rewrite bind_ok. unfold outcome. cbn [snd].
    destruct detailed; [discriminate |].
    unfold py_join. destruct (strings_of msgs); cbn;
      [discriminate | intros [= <-]; now left].
  - rewrite bind_raise. intros He.
    apply (room_holes_loop_origin detailed (rooms h) []).
    rewrite Hloop. unfold outcome in *. cbn [snd] in *.
    now injection He as ->.
Qed.


(** X6.  With [raise_exception=False], [check_for_extension] raises nothing of
    its own making but a TypeError on an answer of the wrong shape: an
    exception it ends with is that TypeError, or the one that
    [parse_distance_string], a host check or the hole check of a room
    raised. *)
Theorem exceptions_come_from_collaborators (h : Host) (detailed : bool)
    (e : Exn) :
  outcome (check_for_extension h false detailed) = Raise e ->
  e = TypeError \/
  parse_distance_string "0.03ft" (units h) = Raise e \/
  exists e_tol,
    parse_distance_string "0.03ft" (units h) = Ok e_tol /\
    (In (Raise e) (host_battery h e_tol detailed) \/
     In (Raise e) (room_reports h detailed)).
Proof.
  destruct (parse_distance_string "0.03ft" (units h)) as [e_tol | e']
    eqn:Hparse.
  - rewrite (check_for_extension_steps h false detailed Hparse).
    cbn [effective]. intros He.
    destruct (run_all (host_steps h e_tol detailed)) as [l [ms | e']]
      eqn:Hrun.
    + rewrite bind_ok, bind_call_prepend in He.
      destruct (check_no_room_holes h false detailed) as [l' [m14 | e']]
        eqn:Hholes.
      * unfold outcome, prepend, bind, lift in He. cbn in He.
        left. now apply final_report_no_raise_flag in He.
      * unfold outcome, prepend, bind in He. cbn in He.
        injection He as ->.
        destruct (check_no_room_holes_origin h detailed (e := e))
          as [-> | Hin]; [now rewrite Hholes | now left |].
        right. right. exists e_tol. split; [reflexivity | now right].
    + unfold outcome in He. cbn in He. injection He as ->.
      right. right. exists e_tol. split; [reflexivity | left].
      change (host_battery h e_tol detailed)
        with (map snd (host_steps h e_tol detailed)).
      apply run_all_raise_origin. now rewrite Hrun.
  - unfold check_for_extension. rewrite Hparse.
    intros [= <-]. right. now left.
Qed.

End AnyHostOrder.


Lemma exception_origin_on_odd_host :
  OtherError "RuntimeError" = TypeError \/
  parse_distance_string "0.03ft" "Meters" =
    Raise (OtherError "RuntimeError") \/
  exists e_tol,
    parse_distance_string "0.03ft" "Meters" = Ok e_tol /\
    (In (Raise (OtherError "RuntimeError"))
        (host_battery
           (odd_host "Meters" [quiet_room "A"]
              (Some (OtherError "RuntimeError"))) e_tol true) \/
     In (Raise (OtherError "RuntimeError"))
        (room_reports
           (odd_host "Meters" [quiet_room "A"]
              (Some (OtherError "RuntimeError"))) true)).
Proof.
  apply (exceptions_come_from_collaborators
           (odd_host "Meters" [quiet_room "A"]
              (Some (OtherError "RuntimeError"))) true).
  reflexivity.
Defined.

(** ** apply_properties_from_dict on any dictionary and any rooms *)

Section AnyData.
Context {Num Room Other : Type}.
Context {host_checks : ModelChecks Num Room Other}.
Context {room_doe2 : RoomDoe2 Room}.
Context {honeybee_units : Units Num}.

Local Abbreviation Host := (Model Num Room Other).

Lemma room_doe2_dict_returns (room_dict v : PyVal) :
  room_doe2_dict room_dict = Ok v -> room_dict_ok room_dict = true.
Proof.
  unfold room_doe2_dict, room_dict_ok.
  destruct room_dict as [| | | | | d]; try discriminate.
  cbn [getitem]. destruct (lookup "properties" d) as [p |];
    [| reflexivity].
  now destruct p.
Qed.

Lemma room_doe2_dicts_returns (room_dicts r_dicts : list PyVal) :
  room_doe2_dicts room_dicts = Ok r_dicts ->
  forallb room_dict_ok room_dicts = true.
Proof.
  revert r_dicts. induction room_dicts as [| rd rds IH]; intros r_dicts;
    [reflexivity |].
  cbn [room_doe2_dicts forallb].
  destruct (room_doe2_dict rd) as [v |] eqn:Hrd; [| discriminate].
  destruct (room_doe2_dicts rds) as [ds |]; [| discriminate].
  intros _. now rewrite (room_doe2_dict_returns _ Hrd), (IH ds).
Qed.


(** X9.  What is not a model dictionary is refused before anything is
    touched: data that is not a dict, or whose ['properties'] is None, a
    number or a boolean, raises a TypeError, and a dict without the key
    ['properties'] raises KeyError('properties'), not the AssertionError;
    in each case the host is as it was and no room was called. *)
Theorem apply_refuses_what_is_no_model (h : Host) (data : PyVal) :
  ((forall d, data <> PDict d) ->
   apply_properties_from_dict h data = (h, ([], Raise TypeError))) /\
  (forall d,
     data = PDict d -> lookup "properties" d = None ->
     apply_properties_from_dict h data =
     (h, ([], Raise (KeyError "properties")))) /\
  (forall d v,
     data = PDict d -> lookup "properties" d = Some v ->
     py_iter v = Raise TypeError ->
     apply_properties_from_dict h data = (h, ([], Raise TypeError))).
Proof.
  repeat split.
  - intros Hdata. destruct data as [| | | | | d]; try reflexivity.
    now destruct (Hdata d).
  - intros d -> Hprops. unfold apply_properties_from_dict, assert_doe2.
    cbn [getitem]. now rewrite Hprops.
  - intros d v -> Hprops Hv.
    unfold apply_properties_from_dict, assert_doe2.
    cbn [getitem]. rewrite Hprops. cbn [rbind].
    now destruct v.
Qed.

(** X10.  The room dictionaries are all read before any room is changed: when
    one of them, at any position, also beyond the host's rooms, is not a
    dict or has a ['properties'] entry that is not a dict, the call
    raises a TypeError, the host is as it was and no room was called. *)
Theorem malformed_room_dictionary_changes_nothing (h : Host)
    (d p : list (string * PyVal)) (room_dicts : list PyVal) :
  lookup "properties" d = Some (PDict p) ->
  lookup "doe2" p <> None ->
  lookup "rooms" d = Some (PList room_dicts) ->
  forallb room_dict_ok room_dicts = false ->
  apply_properties_from_dict h (PDict d) = (h, ([], Raise TypeError)).
Proof.
  intros Hp Hdoe2 Hrooms Hbad. unfold apply_properties_from_dict.
  rewrite (assert_doe2_dict _ Hp).
  destruct (lookup "doe2" p) as [v |]; [| congruence].
  rewrite has_rooms_dict, Hrooms. cbn [is_none negb getitem].
  rewrite Hrooms. cbn [rbind py_iter].
  destruct (room_doe2_dicts room_dicts) as [r_dicts | e] eqn:Hdicts.
  - apply room_doe2_dicts_returns in Hdicts. congruence.
  - now rewrite (room_doe2_dicts_raise _ Hdicts).
Qed.


End AnyData.

Section Refusal.
Context {Num Room Other : Type}.
Context {host_checks : ModelChecks Num Room Other}.
Context {room_doe2 : RoomDoe2 Room}.
Context {honeybee_units : Units Num}.

Local Abbreviation Host := (Model Num Room Other).



(** X13.  What [to_dict] produces is what [apply_properties_from_dict] asks
    for: a ['properties'] dictionary that holds the entries of [to_dict]
    passes the assertion, and when the model dictionary lists no rooms
    the call returns with nothing called and nothing changed. *)
Theorem to_dict_passes_the_assertion (h h' : Host)
    (d p entries : list (string * PyVal)) :
  to_dict h' = PDict entries ->
  (forall k v, lookup k entries = Some v -> lookup k p = Some v) ->
  lookup "properties" d = Some (PDict p) ->
  assert_doe2 (PDict d) = Ok tt /\
  (lookup "rooms" d = None ->
   apply_properties_from_dict h (PDict d) = (h, ([], Ok tt))).
Proof.
  intros Hto Hincl Hp. injection Hto as <-.
  assert (Hassert : assert_doe2 (PDict d) = Ok tt).
  { rewrite (assert_doe2_dict _ Hp).
    now rewrite (Hincl "doe2" _ eq_refl). }
  split; [exact Hassert |].
  intros Hrooms. unfold apply_properties_from_dict.
  now rewrite Hassert, has_rooms_dict, Hrooms.
Qed.

End Refusal.

(** ** How the reports of the two modes and of the two checks relate *)

Lemma append_assoc (s1 s2 s3 : string) :
  ((s1 ++ s2) ++ s3 = s1 ++ (s2 ++ s3))%string.
Proof. induction s1 as [| c s1 IH]; cbn; [reflexivity | now rewrite IH]. Qed.

Lemma concat_app_suffix (sep : string) (ss ss' : list string) :
  ss' <> [] ->
  exists prefix,
    String.concat sep (ss ++ ss') = (prefix ++ String.concat sep ss')%string.
Proof.
  intros Hss'. induction ss as [| s ss [prefix IH]].
  - now exists "".
  - exists (s ++ sep ++ prefix)%string. cbn [app].
    rewrite concat_cons, IH, !append_assoc; [reflexivity |].
    intros H. apply app_eq_nil in H. destruct H. congruence.
Qed.

Lemma nonempty_true_iff (s : string) : s <> "" <-> nonempty s = true.
Proof.
  unfold nonempty. destruct (String.eqb_spec s ""); cbn; split;
    congruence.
Qed.

Lemma merged_text_not_empty (rs : list (Result PyVal)) :
  merged_texts rs <> [] -> merged_text rs <> "".
Proof.
  intros Hne. apply nonempty_true_iff.
  apply concat_nonempty; [exact Hne | apply merged_texts_nonempty].
Qed.

Section Modes.
Context {Num Room Other : Type}.
Context {host_checks : ModelChecks Num Room Other}.
Context {room_doe2 : RoomDoe2 Room}.
Context {honeybee_units : Units Num}.

Local Abbreviation Host := (Model Num Room Other).

Lemma raise_or_return (rs : list (Result PyVal)) (m : string) :
  (if true && negb (Nat.eqb (List.length (merged_texts rs)) 0)
   then Raise (ValueError (merged_text rs))
   else Ok (PStr (merged_text rs))) = Raise (ValueError m) <->
  Ok (PStr (merged_text rs)) = Ok (PStr m) /\ m <> "".
Proof.
  cbn [andb]. pose proof (merged_text_not_empty rs) as Hne.
  unfold merged_text in *.
  destruct (merged_texts rs) as [| s ss];
    cbn [List.length Nat.eqb negb].
  - split; [discriminate |]. intros [[= <-] Hm]. now destruct Hm.
  - split.
    + intros [= <-]. split; [reflexivity | apply Hne; discriminate].
    + now intros [[= <-] _].
Qed.

(** X14.  On a host whose collaborators honour their contract the two modes
    agree: [check_for_extension] asked to raise raises the ValueError
    with message [m] exactly when, asked not to raise, it returns [m]
    and [m] is not empty; and the same holds of
    [check_no_room_holes]. *)
Theorem raised_message_is_the_returned_report (h : Host)
    (detailed : bool) (m : string) :
  host_contract h ->
  (outcome (check_for_extension h true detailed) = Raise (ValueError m) <->
   outcome (check_for_extension h false false) = Ok (PStr m) /\ m <> "") /\
  (outcome (check_no_room_holes h true detailed) = Raise (ValueError m) <->
   outcome (check_no_room_holes h false false) = Ok (PStr m) /\ m <> "").
Proof.
  intros Hc. destruct (units_parse Hc) as [e_tol He]. split.
  - rewrite !(check_for_extension_outcome _ _ Hc He).
    cbn [effective]. apply raise_or_return.
  - rewrite !(check_no_room_holes_run _ _ (room_checks_ok Hc)).
    unfold outcome. cbn [snd effective]. apply raise_or_return.
Qed.

(** X15.  On a host whose collaborators honour their contract, what the hole
    check finds is the end of what [check_for_extension] reports: the
    message [check_no_room_holes] raises ends the message
    [check_for_extension] raises, and the records it returns end the
    records [check_for_extension] returns. *)
Theorem hole_report_ends_the_extension_report (h : Host)
    (detailed : bool) :
  host_contract h ->
  (forall m,
     outcome (check_no_room_holes h true detailed) = Raise (ValueError m) ->
     exists prefix,
       outcome (check_for_extension h true detailed) =
       Raise (ValueError (prefix ++ m)%string)) /\
  (forall records,
     outcome (check_no_room_holes h false true) = Ok (PList records) ->
     exists before,
       outcome (check_for_extension h false true) =
       Ok (PList (before ++ records))).
Proof.
  intros Hc. destruct (units_parse Hc) as [e_tol He]. split.
  - intros m.
    rewrite (check_no_room_holes_run _ _ (room_checks_ok Hc)).
    rewrite (check_for_extension_outcome _ _ Hc He).
    unfold outcome. cbn [snd effective andb].
    unfold merged_text, all_results. rewrite merged_texts_app.
    destruct (merged_texts (room_reports h false)) as [| s ss] eqn:Hrooms;
      cbn [List.length Nat.eqb negb]; [discriminate |].
    intros [= <-]. rewrite length_app. cbn [List.length].
    rewrite Nat.add_succ_r. cbn [Nat.eqb negb].
    destruct (concat_app_suffix newline
                (merged_texts (host_battery h e_tol false))
                (ss' := s :: ss)) as [prefix Hprefix]; [discriminate |].
    exists prefix. now rewrite Hprefix.
  - intros records.
    rewrite (check_no_room_holes_run _ _ (room_checks_ok Hc)).
    rewrite (check_for_extension_outcome _ _ Hc He).
    unfold outcome. cbn [snd effective]. intros [= <-].
    exists (merged_records (host_battery h e_tol true)).
    unfold all_results. now rewrite merged_records_app.
Qed.

End Modes.

Lemma apply_refuses_a_list :
  apply_properties_from_dict demo_host (PList []) =
  (demo_host, ([], Raise TypeError)).
Proof.
  apply (proj1 (apply_refuses_what_is_no_model demo_host (PList []))).
  discriminate.
Defined.

Lemma malformed_room_dictionary_on_demo :
  apply_properties_from_dict demo_host
    (demo_data (PList [demo_room_dict "1"; demo_room_dict "2";
                       demo_room_dict "3"; PNone])) =
  (demo_host, ([], Raise TypeError)).
Proof.
  apply (malformed_room_dictionary_changes_nothing demo_host
           (demo_entries (PList [demo_room_dict "1"; demo_room_dict "2";
                                 demo_room_dict "3"; PNone]))
           (p := demo_properties)
           (room_dicts := [demo_room_dict "1"; demo_room_dict "2";
                           demo_room_dict "3"; PNone])).
  - reflexivity.
  - discriminate.
  - reflexivity.
  - reflexivity.
Defined.


Lemma to_dict_round_trip_on_demo :
  apply_properties_from_dict demo_host
    (PDict [("properties", to_dict clean_host)]) =
  (demo_host, ([], Ok tt)).
Proof.
  apply (proj2 (to_dict_passes_the_assertion demo_host (h' := clean_host)
                  [("properties", to_dict clean_host)]
                  (p := [("doe2",
                          PDict [("type", PStr "ModelDoe2Properties")])])
                  eq_refl (fun k v H => H) eq_refl)).
  reflexivity.
Defined.

Lemma raised_message_on_demo :
  outcome (check_for_extension demo_host false false) =
    Ok (PStr (String.concat newline demo_messages)) /\
  String.concat newline demo_messages <> "".
Proof.
  apply (proj1 (raised_message_is_the_returned_report true
                  (String.concat newline demo_messages)
                  demo_host_contract)).
  reflexivity.
Defined.

Lemma hole_report_on_demo :
  exists prefix,
    outcome (check_for_extension demo_host true true) =
    Raise (ValueError
             (prefix ++ String.concat newline
                          ["Room B has holes"; "Room C has holes"])%string).
Proof.
  apply (proj1 (hole_report_ends_the_extension_report true
                  demo_host_contract)).
  reflexivity.
Defined.
